(** * Rule-management client and ring join policy

    A shallow embedding of
      - cmd/cortextool/pkg/client/client.go  (the ruler API client), and
      - pkg/alertmanager/lifecycle.go        (the alertmanager ring hooks),
    together with the properties of the written specification that can be
    stated over them.

    Go values are modelled as follows.  A [string] is a Go string (a byte
    sequence), an [int] is a [Z], a [uint32] token is a [Z], a Go map is a
    [gmap].  A function returning [(T, error)] returns [T + error]; one
    returning only [error] returns [option error] ([None] is [nil]).  The
    effects of the client (log lines, the call of the HTTP transport, reading
    and closing a response body) are recorded, in program order, in the trace
    of a writer monad. *)

From Stdlib Require Import ZArith NArith String Ascii List Bool Lia.
From stdpp Require Import gmap strings list fin_maps.

Local Open Scope string_scope.
Local Open Scope Z_scope.
Local Open Scope list_scope.

(** ** Go errors *)

Module goerr.

(** The error values the two packages can see.  [ErrNoConfig] and
    [ErrResourceNotFound] are the package-level sentinels of client.go; a
    value built by [errors.New], [errors.Wrap] or [fmt.Errorf] inside a
    function is a fresh value, different from every sentinel.  [foreign]
    stands for an error made by a library (net/http, net/url, io, yaml). *)
Inductive error : Type :=
| ErrNoConfig
| ErrResourceNotFound
| errors_New (msg : string)
| errors_Wrap (cause : error) (msg : string)
| fmt_Errorf (msg : string)
| context_Canceled
| context_DeadlineExceeded
| foreign (pkg msg : string).

(** The [Error()] method. *)
Fixpoint Error (e : error) : string :=
  match e with
  | ErrNoConfig => "No config exists for this user"
  | ErrResourceNotFound => "requested resource not found"
  | errors_New msg => msg
  | errors_Wrap cause msg => msg +:+ ": " +:+ Error cause
  | fmt_Errorf msg => msg
  | context_Canceled => "context canceled"
  | context_DeadlineExceeded => "context deadline exceeded"
  | foreign _ msg => msg
  end.

(** [errors.Cause] of github.com/pkg/errors: the innermost wrapped error. *)
Fixpoint errors_Cause (e : error) : error :=
  match e with
  | errors_Wrap cause _ => errors_Cause cause
  | _ => e
  end.

(** Whether [e] is a value of [errors.Wrap] carrying the message [ctx]. *)
Definition wrapped_with (ctx : string) (e : error) : bool :=
  match e with
  | errors_Wrap _ msg => String.eqb msg ctx
  | _ => false
  end.

(** Whether [e] reports a cancelled context or an expired deadline, directly
    or as the cause of a wrapped error. *)
Definition is_cancellation (e : error) : bool :=
  match errors_Cause e with
  | context_Canceled | context_DeadlineExceeded => true
  | _ => false
  end.

End goerr.
Export goerr.

(** ** encoding/base64 and net/textproto *)

Module encoding.

Definition encodeStd : string :=
  "ABCDEFGHIJKLMNOPQRSTUVWXYZabcdefghijklmnopqrstuvwxyz0123456789+/".

Definition sextet (n : N) : ascii :=
  match String.get (N.to_nat (N.land n 63)) encodeStd with
  | Some c => c
  | None => "="%char
  end.

(** [base64.StdEncoding.EncodeToString] on the bytes [src]: three bytes give
    four characters, a last group of one or two bytes is padded with [=]. *)
Fixpoint base64_encode (src : list N) : string :=
  match src with
  | [] => ""
  | a :: b :: c :: rest =>
      let val := N.lor (N.lor (N.shiftl a 16) (N.shiftl b 8)) c in
      String (sextet (N.shiftr val 18)) (String (sextet (N.shiftr val 12))
        (String (sextet (N.shiftr val 6)) (String (sextet val)
          (base64_encode rest))))
  | [a; b] =>
      let val := N.lor (N.shiftl a 16) (N.shiftl b 8) in
      String (sextet (N.shiftr val 18)) (String (sextet (N.shiftr val 12))
        (String (sextet (N.shiftr val 6)) "="))
  | [a] =>
      let val := N.shiftl a 16 in
      String (sextet (N.shiftr val 18)) (String (sextet (N.shiftr val 12)) "==")
  end.

Definition bytes_of (s : string) : list N :=
  List.map N_of_ascii (list_ascii_of_string s).

Definition EncodeToString (s : string) : string := base64_encode (bytes_of s).

(** net/http [basicAuth]. *)
Definition basicAuth (username password : string) : string :=
  EncodeToString (username +:+ ":" +:+ password).

Definition between (lo hi c : N) : bool := (lo <=? c)%N && (c <=? hi)%N.

Definition is_lower (c : N) : bool := between 97 122 c.
Definition is_upper (c : N) : bool := between 65 90 c.
Definition is_digit (c : N) : bool := between 48 57 c.

(** net/textproto [validHeaderFieldByte]: the token characters of RFC 7230. *)
Definition validHeaderFieldByte (c : N) : bool :=
  is_lower c || is_upper c || is_digit c ||
  existsb (N.eqb c) [33; 35; 36; 37; 38; 39; 42; 43; 45; 46; 94; 95; 96; 124; 126]%N.

Fixpoint canon (upper : bool) (bs : list N) : list N :=
  match bs with
  | [] => []
  | c :: rest =>
      let c' := if upper && is_lower c then (c - 32)%N
                else if negb upper && is_upper c then (c + 32)%N
                else c in
      c' :: canon (N.eqb c' 45) rest
  end.

(** [textproto.CanonicalMIMEHeaderKey]: a key made of token characters gets
    an upper-case letter first and after every dash and lower-case letters
    elsewhere; any other key is returned as it is. *)
Definition CanonicalMIMEHeaderKey (s : string) : string :=
  let bs := bytes_of s in
  if forallb validHeaderFieldByte bs
  then string_of_list_ascii (List.map ascii_of_N (canon true bs))
  else s.

End encoding.
Export encoding.


(** ** context.Context *)

Module context.

(** A context as the callee observes it during one call: the background
    context, or one derived from a parent with a cancel function or a
    deadline, together with whether it was cancelled or has expired. *)
Inductive Context : Type :=
| Background
| WithCancel (parent : Context) (cancelled : bool)
| WithDeadline (parent : Context) (expired : bool).

(** [ctx.Err()]: [nil] while the context is live. *)
Fixpoint Err (ctx : Context) : option error :=
  match ctx with
  | Background => None
  | WithCancel parent cancelled =>
      match Err parent with
      | Some e => Some e
      | None => if cancelled then Some context_Canceled else None
      end
  | WithDeadline parent expired =>
      match Err parent with
      | Some e => Some e
      | None => if expired then Some context_DeadlineExceeded else None
      end
  end.

End context.

(** ** The libraries the client is linked against

    net/url and gopkg.in/yaml.v2 are not part of the repository; the client
    is modelled over any implementation of the functions it calls.  The rule
    types of prometheus/rulefmt and cortex/ruler/store are opaque to the
    client, which only passes them to the codec. *)

Class Library : Type := {
  URL : Type;
  url_Parse : string -> URL + error;
  URL_String : URL -> string;
  RuleGroup : Type;
  RuleNamespace : Type;
  yaml_Marshal : RuleGroup -> string + error;
  yaml_Unmarshal_RuleGroup : string -> RuleGroup + error;
  yaml_Unmarshal_RuleSet : string -> gmap string RuleNamespace + error
}.

(** ** net/http *)

Module http.
Section Http.
Context `{Library}.

(** An [io.ReadCloser] holding a response body: what reading it to the end
    gives. *)
Record ReadCloser : Type := {
  content : string;
  read_error : option error
}.

(** [http.Header] is a [map[string][]string] keyed by canonical names. *)
Definition Header_Add (key value : string) (h : gmap string (list string))
  : gmap string (list string) :=
  let k := CanonicalMIMEHeaderKey key in
  <[k := default [] (h !! k) ++ [value]]> h.

Definition Header_Set (key value : string) (h : gmap string (list string))
  : gmap string (list string) :=
  <[CanonicalMIMEHeaderKey key := [value]]> h.

Definition Header_Get (key : string) (h : gmap string (list string)) : string :=
  match h !! CanonicalMIMEHeaderKey key with
  | Some (v :: _) => v
  | _ => ""
  end.

Record Request : Type := {
  ctx : context.Context;
  Method : string;
  ReqURL : URL;
  Header : gmap string (list string);
  ReqBody : string
}.

Record Response : Type := {
  Status : string;
  StatusCode : Z;
  Body : ReadCloser
}.

(** net/http [validMethod]: a non-empty token. *)
Definition validMethod (method : string) : bool :=
  negb (String.eqb method "") && forallb validHeaderFieldByte (bytes_of method).

(** [http.NewRequest(method, url, body)], which is
    [NewRequestWithContext(context.Background(), method, url, body)]: the
    request it makes always carries the background context. *)
Definition NewRequest (method url : string) (body : string) : Request + error :=
  let method := if String.eqb method "" then "GET" else method in
  if negb (validMethod method)
  then inr (foreign "net/http" ("net/http: invalid method " +:+ method))
  else match url_Parse url with
       | inr err => inr err
       | inl u =>
           inl {| ctx := context.Background; Method := method; ReqURL := u;
                  Header := ∅; ReqBody := body |}
       end.

(** [req.SetBasicAuth(username, password)]. *)
Definition SetBasicAuth (username password : string) (req : Request) : Request :=
  {| ctx := ctx req; Method := Method req; ReqURL := ReqURL req;
     Header := Header_Set "Authorization"
                 ("Basic " +:+ basicAuth username password) (Header req);
     ReqBody := ReqBody req |}.

(** [req.Header.Add(key, value)]. *)
Definition AddHeader (key value : string) (req : Request) : Request :=
  {| ctx := ctx req; Method := Method req; ReqURL := ReqURL req;
     Header := Header_Add key value (Header req);
     ReqBody := ReqBody req |}.

(** What [http.Client.Do] does with a request: the server's answer or a
    transport error.  The network and the server are outside the program, so
    a client is any such function. *)
Definition Client : Type := Request -> Response + error.

End Http.
End http.
Export http.

(** ** Effects *)

Inductive Level : Type := Debug | ErrorLevel.

(** What an operation does to the outside, in the order it does it. *)
Inductive Event `{Library} : Type :=
| EvLog (level : Level) (msg : string) (fields : list (string * string))
| EvDo (req : Request) (out : Response + error)
| EvReadAll (body : ReadCloser)
| EvClose (body : ReadCloser).

Module effects.
Section Effects.
Context `{Library}.

Definition M (A : Type) : Type := (A * list Event)%type.

Definition ret {A} (a : A) : M A := (a, []).

Definition bind {A B} (m : M A) (k : A -> M B) : M B :=
  let (b, t) := k (fst m) in (b, snd m ++ t).

Definition emit (e : Event) : M unit := (tt, [e]).

(** [defer body.Close()]: the body is closed when the rest of the function
    has run, whatever it returns. *)
Definition defer_Close {A} (body : ReadCloser) (rest : M A) : M A :=
  (fst rest, snd rest ++ [EvClose body]).

(** The requests handed to the transport. *)
Definition sent (t : list Event) : list Request :=
  omap (fun e => match e with EvDo req _ => Some req | _ => None end) t.

(** The bodies of the responses the transport returned. *)
Definition opened (t : list Event) : list ReadCloser :=
  omap (fun e => match e with EvDo _ (inl resp) => Some (Body resp) | _ => None end) t.

(** The bodies read to the end. *)
Definition drained (t : list Event) : list ReadCloser :=
  omap (fun e => match e with EvReadAll b => Some b | _ => None end) t.

(** The bodies closed. *)
Definition closed (t : list Event) : list ReadCloser :=
  omap (fun e => match e with EvClose b => Some b | _ => None end) t.

End Effects.
End effects.
Export effects.

Notation "x <- m ;; k" := (bind m (fun x => k))
  (at level 100, m at next level, right associativity, only parsing).
Notation "m ;;; k" := (bind m (fun _ => k))
  (at level 100, right associativity, only parsing).

(** ** cmd/cortextool/pkg/client *)

Module client.
Section RulerClient.
Context `{Library}.

(** Config is used to configure a Ruler Client. *)
Record Config : Type := {
  Key : string;
  Address : string;
  ID : string
}.

(** RulerClient is used to get and load rules into a cortex ruler. *)
Record RulerClient : Type := {
  key : string;
  id : string;
  endpoint : URL;
  client : http.Client
}.

(** [New]: the zero [http.Client{}] talks to the network [net]. *)
Definition New (net : http.Client) (cfg : Config) : M (RulerClient + error) :=
  match url_Parse (Address cfg) with
  | inr err => ret (inr err)
  | inl endpoint =>
      emit (EvLog Debug "New ruler client created"
              [("address", Address cfg); ("id", ID cfg)]) ;;;
      ret (inl {| key := Key cfg; id := ID cfg; endpoint := endpoint;
                  client := net |})
  end.

(** [ioutil.ReadAll(body)]: the bytes read and the error met, if any. *)
Definition ioutil_ReadAll (body : ReadCloser) : M (string * option error) :=
  emit (EvReadAll body) ;;;
  ret (content body, read_error body).

(** checkResponse checks the API response for errors. *)
Definition checkResponse (r : Response) : M (option error) :=
  emit (EvLog Debug "checking response" [("status", Status r)]) ;;;
  if (200 <=? StatusCode r) && (StatusCode r <=? 299) then ret None
  else
    rd <- ioutil_ReadAll (Body r) ;;
    let msg :=
      match snd rd with
      | Some err => "unable to decode body, " +:+ Error err
      | None => "request failed with response body " +:+ fst rd
      end in
    if StatusCode r =? 404 then
      emit (EvLog Debug "resource not found"
              [("status", Status r); ("msg", msg)]) ;;;
      ret (Some ErrResourceNotFound)
    else
      emit (EvLog ErrorLevel "requests failed"
              [("status", Status r); ("msg", msg)]) ;;;
      ret (Some (errors_New "failed request to the ruler api")).

Definition doRequest (r : RulerClient) (path method : string) (payload : string)
  : M (Response + error) :=
  match NewRequest method (URL_String (endpoint r) +:+ path) payload with
  | inr err => ret (inr err)
  | inl req =>
      let req := if String.eqb (key r) "" then req
                 else SetBasicAuth (id r) (key r) req in
      let req := AddHeader "X-Scope-OrgID" (id r) req in
      emit (EvLog Debug "sending request to ruler api"
              [("url", URL_String (ReqURL req))]) ;;;
      emit (EvDo req (client r req)) ;;;
      match client r req with
      | inr err => ret (inr err)
      | inl resp =>
          err <- checkResponse resp ;;
          match err with
          | Some err => ret (inr err)
          | None => ret (inl resp)
          end
      end
  end.

(** CreateRuleGroup creates a new rule group. *)
Definition CreateRuleGroup (r : RulerClient) (ctx : context.Context)
    (namespace : string) (rg : RuleGroup) : M (option error) :=
  match yaml_Marshal rg with
  | inr err => ret (Some err)
  | inl payload =>
      res <- doRequest r ("/api/prom/rules/" +:+ namespace) "POST" payload ;;
      match res with
      | inr err => ret (Some err)
      | inl res =>
          defer_Close (Body res)
            (err <- checkResponse res ;;
             match err with
             | Some err => ret (Some err)
             | None => ret None
             end)
      end
  end.

(** DeleteRuleGroup: the group name is not used. *)
Definition DeleteRuleGroup (r : RulerClient) (ctx : context.Context)
    (namespace groupName : string) : M (option error) :=
  res <- doRequest r ("/api/prom/rules/" +:+ namespace) "DELETE" "" ;;
  match res with
  | inr err => ret (Some err)
  | inl res =>
      defer_Close (Body res)
        (err <- checkResponse res ;;
         match err with
         | Some err => ret (Some err)
         | None =>
             rd <- ioutil_ReadAll (Body res) ;;
             match snd rd with
             | Some err => ret (Some err)
             | None =>
                 if Z.rem (StatusCode res) 2 >? 0
                 then ret (Some (fmt_Errorf ("error occured, " +:+ fst rd)))
                 else ret None
             end
         end)
  end.

(** GetRuleGroup retrieves a rule group. *)
Definition GetRuleGroup (r : RulerClient) (ctx : context.Context)
    (namespace groupName : string) : M (RuleGroup + error) :=
  res <- doRequest r ("/api/prom/rules/" +:+ namespace +:+ "/" +:+ groupName)
           "GET" "" ;;
  match res with
  | inr err => ret (inr (errors_Wrap err "failed to perform request"))
  | inl res =>
      defer_Close (Body res)
        (err <- checkResponse res ;;
         match err with
         | Some err => ret (inr err)
         | None =>
             rd <- ioutil_ReadAll (Body res) ;;
             match snd rd with
             | Some err => ret (inr err)
             | None =>
                 match yaml_Unmarshal_RuleGroup (fst rd) with
                 | inr err =>
                     emit (EvLog Debug
                             "failed to unmarshal rule group from response"
                             [("body", fst rd)]) ;;;
                     ret (inr (errors_Wrap err "unable to unmarshal response"))
                 | inl rg => ret (inl rg)
                 end
             end
         end)
  end.

(** ListRules retrieves the rule groups of one namespace, or of all of them
    when [namespace] is empty. *)
Definition ListRules (r : RulerClient) (ctx : context.Context)
    (namespace : string) : M (gmap string RuleNamespace + error) :=
  let path := "/api/prom/rules" in
  let path := if String.eqb namespace "" then path
              else path +:+ "/" +:+ namespace in
  res <- doRequest r path "GET" "" ;;
  match res with
  | inr err => ret (inr err)
  | inl res =>
      defer_Close (Body res)
        (err <- checkResponse res ;;
         match err with
         | Some err => ret (inr err)
         | None =>
             rd <- ioutil_ReadAll (Body res) ;;
             match snd rd with
             | Some err => ret (inr err)
             | None =>
                 match yaml_Unmarshal_RuleSet (fst rd) with
                 | inr err => ret (inr err)
                 | inl ruleSet => ret (inl ruleSet)
                 end
             end
         end)
  end.

End RulerClient.
End client.


(** * The ring join policy *)

(** ** github.com/grafana/dskit/ring, as far as the policy uses it *)

Module ring.

Inductive InstanceState : Type := ACTIVE | LEAVING | PENDING | JOINING | LEFT.

(** An instance's entry in the ring; a token is a [uint32]. *)
Record InstanceDesc : Type := {
  Addr : string;
  Timestamp : Z;
  State : InstanceState;
  Tokens : list Z
}.

(** The ring descriptor: the entries by instance id. *)
Record Desc : Type := {
  Ingesters : gmap string InstanceDesc
}.

(** Modelled from the spec: [Desc.TokensFor] is in grafana/dskit, not under
    src/.  "The descriptor query returns owned tokens and taken tokens": the
    tokens of the entry with the given id, and the tokens of all entries. *)
Definition TokensFor (d : Desc) (id : string) : list Z * list Z :=
  (match Ingesters d !! id with
   | Some inst => Tokens inst
   | None => []
   end,
   concat (List.map (fun entry => Tokens (snd entry)) (map_to_list (Ingesters d)))).

(** The loop of the token generator over the candidates its random source
    draws, in the order drawn: a candidate already used is skipped, any other
    is taken and becomes used, until [n] tokens are taken.  [None] when the
    candidates run out first: the generator is still drawing. *)
Fixpoint take_fresh (candidates : list Z) (used : gset Z) (n : nat)
  : option (list Z) :=
  match n with
  | O => Some []
  | S n' =>
      match candidates with
      | [] => None
      | c :: rest =>
          if decide (c ∈ used) then take_fresh rest used n
          else option_map (cons c) (take_fresh rest ({[c]} ∪ used) n')
      end
  end.

(** Modelled from the spec: [GenerateTokens] is in grafana/dskit, not under
    src/.  "Generate [numTokens] fresh tokens, disjoint from the taken set,
    via a uniform random token generator"; the generator's draws are the
    argument [random], and a count that is not positive gives no token. *)
Definition GenerateTokens (random : list Z) (numTokens : Z) (takenTokens : list Z)
  : option (list Z) :=
  if numTokens <=? 0 then Some []
  else take_fresh random (list_to_set takenTokens) (Z.to_nat numTokens).

End ring.

(** ** pkg/alertmanager/lifecycle.go *)

Module alertmanager.
Import ring.

Section Lifecycle.

(** The per-instance token quota, a constant of the package that is defined
    outside lifecycle.go. *)
Variable RingNumTokens : Z.

(** The draws of the token generator's random source during the call. *)
Variable random : list Z.

(** [OnRingInstanceRegister]; the lifecycler argument is not used.  When we
    initialize the alertmanager instance in the ring we want to start from a
    clean situation, so whatever is the state we set it JOINING, while we keep
    existing tokens (if any). *)
Definition OnRingInstanceRegister (ringDesc : Desc) (instanceExists : bool)
    (instanceID : string) (instanceDesc : InstanceDesc)
  : option (InstanceState * list Z) :=
  let tokens := if instanceExists then Tokens instanceDesc else [] in
  let takenTokens := snd (TokensFor ringDesc instanceID) in
  match GenerateTokens random (RingNumTokens - Z.of_nat (length tokens)) takenTokens with
  | None => None
  | Some newTokens => Some (JOINING, tokens ++ newTokens)
  end.

End Lifecycle.
End alertmanager.

(** ** A concrete set of libraries, for running the client

    [textual] implements [Library] for concrete runs.  A URL is kept as its
    text: net/url renders an absolute URL that has no user information, no
    query, no fragment and no escape back to the text it was parsed from.  A
    rule group is kept as its YAML text, a namespace as the texts of its
    groups, and the codec accepts a text iff [codec_ok] holds. *)

Module run.
Import ring.

Definition yaml_error : error := foreign "yaml" "yaml: unmarshal errors".

Definition textual (codec_ok : bool) : Library := {|
  URL := string;
  url_Parse := fun s => inl s;
  URL_String := fun u => u;
  RuleGroup := string;
  RuleNamespace := list string;
  yaml_Marshal := fun rg => if codec_ok then inl rg else inr yaml_error;
  yaml_Unmarshal_RuleGroup := fun s => if codec_ok then inl s else inr yaml_error;
  yaml_Unmarshal_RuleSet :=
    fun s => if codec_ok then inl {[ "alerts" := [s] ]} else inr yaml_error
|}.

(** A server that answers every request with the given status and body. *)
Definition answering `{Library} (status : string) (code : Z) (body : string)
  : http.Client :=
  fun _ => inl {| Status := status; StatusCode := code;
                  Body := {| content := body; read_error := None |} |}.

(** A network on which no connection can be made. *)
Definition refusing `{Library} : http.Client :=
  fun _ => inr (foreign "net" "dial tcp: connection refused").

(** A transport that, like net/http's, gives up on a request whose context is
    done and returns the context's error; otherwise the server answers 204. *)
Definition honouring_context `{Library} : http.Client :=
  fun req =>
    match context.Err (ctx req) with
    | Some e => inr e
    | None => answering "204 No Content" 204 "" req
    end.

(** The configuration of the specification's first scenario, and the client
    [New] makes of it (see [New_scenario]). *)
Definition scenario_config : client.Config :=
  {| client.Key := "s3cr3t"; client.Address := "http://r.example/";
     client.ID := "t1" |}.

Definition scenario_client (codec_ok : bool) (net : @http.Client (textual codec_ok))
  : @client.RulerClient (textual codec_ok) :=
  {| client.key := "s3cr3t"; client.id := "t1";
     client.endpoint := "http://r.example/" : @URL (textual codec_ok);
     client.client := net |}.

Definition background : context.Context := context.Background.

Definition cancelled : context.Context := context.WithCancel context.Background true.

Definition no_content : @http.Client (textual true) :=
  answering "204 No Content" 204 "".

Definition not_found : @http.Client (textual true) :=
  answering "404 Not Found" 404 "not found".

Definition created : @http.Client (textual true) :=
  answering "201 Created" 201 "ok".

Definition connection_refused : error := foreign "net" "dial tcp: connection refused".

Definition server_error : @http.Client (textual true) :=
  answering "500 Internal Server Error" 500 "boom".

Definition one_group : @http.Client (textual true) :=
  answering "200 OK" 200 "name: g1".

Definition unexpected_EOF : error := foreign "io" "unexpected EOF".

(** A server whose answer is accepted but whose body cannot be read to the
    end. *)
Definition truncating : @http.Client (textual true) :=
  fun _ => inl {| Status := "200 OK"; StatusCode := 200;
                  Body := {| content := "name"; read_error := Some unexpected_EOF |} |}.

(** The request of the first scenario, as [doRequest] hands it to the
    transport. *)
Definition scenario_request : @Request (textual true) :=
  {| http.ctx := context.Background; Method := "POST";
     ReqURL := "http://r.example//api/prom/rules/alerts" : @URL (textual true);
     Header := {[ "X-Scope-Orgid" := ["t1"];
                  "Authorization" := ["Basic dDE6czNjcjN0"] ]};
     ReqBody := "name: g1" |}.

(** A source that draws 1000, 1001, ... *)
Definition counting (n : nat) : list Z := List.map Z.of_nat (seq 1000 n).

Definition entry (tokens : list Z) : InstanceDesc :=
  {| Addr := "127.0.0.1:9094"; Timestamp := 0; State := ACTIVE; Tokens := tokens |}.

(** A ring of two alertmanagers: am-1 holds 1001 and 1005, am-2 holds 7 and
    1003. *)
Definition two_instances : Desc :=
  {| Ingesters := {[ "am-1" := entry [1001; 1005]; "am-2" := entry [7; 1003] ]} |}.

(** A prior entry with 129 tokens. *)
Definition crowded : InstanceDesc := entry (List.map Z.of_nat (seq 1 129)).

End run.

(** * Vocabulary for the properties of the client *)

Module client_spec.
Import client.
Section Spec.
Context `{Library}.

(** The HTTP statuses [checkResponse] accepts. *)
Definition accepted (code : Z) : bool := (200 <=? code) && (code <=? 299).

(** The error [checkResponse] gives for a status it does not accept. *)
Definition classify (code : Z) : error :=
  if code =? 404 then ErrResourceNotFound
  else errors_New "failed request to the ruler api".

(** The request [doRequest] hands to the transport, made from the one
    [NewRequest] returned (client.go, lines 64 to 68). *)
Definition outbound (r : RulerClient) (req : Request) : Request :=
  AddHeader "X-Scope-OrgID" (id r)
    (if String.eqb (key r) "" then req else SetBasicAuth (id r) (key r) req).

(** The transport returned the response [resp] during the run [t]. *)
Definition answered (t : list Event) (resp : Response) : Prop :=
  exists req, In (EvDo req (inl resp)) t.

(** The transport failed with [e] during the run [t]. *)
Definition failed (t : list Event) (e : error) : Prop :=
  exists req, In (EvDo req (inr e)) t.

(** A request [doRequest] can have handed to the transport: an outbound
    request made from one of [NewRequest]. *)
Definition built (r : RulerClient) (path method payload : string) (req : Request) : Prop :=
  exists req0,
    NewRequest method (URL_String (endpoint r) +:+ path) payload = inl req0 /\
    req = outbound r req0.

(** The four ways a call of [doRequest] can go, each with what it returns
    and the trace it leaves. *)
Inductive ran (r : RulerClient) (path method payload : string)
  : M (Response + error) -> Prop :=
| ran_unsent err :
    NewRequest method (URL_String (endpoint r) +:+ path) payload = inr err ->
    ran r path method payload (inr err, [])
| ran_failed req0 err :
    NewRequest method (URL_String (endpoint r) +:+ path) payload = inl req0 ->
    client r (outbound r req0) = inr err ->
    ran r path method payload
      (inr err,
       [EvLog Debug "sending request to ruler api"
          [("url", URL_String (ReqURL (outbound r req0)))];
        EvDo (outbound r req0) (inr err)])
| ran_rejected req0 resp msg lvl text :
    NewRequest method (URL_String (endpoint r) +:+ path) payload = inl req0 ->
    client r (outbound r req0) = inl resp ->
    accepted (StatusCode resp) = false ->
    ran r path method payload
      (inr (classify (StatusCode resp)),
       [EvLog Debug "sending request to ruler api"
          [("url", URL_String (ReqURL (outbound r req0)))];
        EvDo (outbound r req0) (inl resp);
        EvLog Debug "checking response" [("status", Status resp)];
        EvReadAll (Body resp);
        EvLog lvl text [("status", Status resp); ("msg", msg)]])
| ran_accepted req0 resp :
    NewRequest method (URL_String (endpoint r) +:+ path) payload = inl req0 ->
    client r (outbound r req0) = inl resp ->
    accepted (StatusCode resp) = true ->
    ran r path method payload
      (inl resp,
       [EvLog Debug "sending request to ruler api"
          [("url", URL_String (ReqURL (outbound r req0)))];
        EvDo (outbound r req0) (inl resp);
        EvLog Debug "checking response" [("status", Status resp)]]).

(** The messages logged at error level during the run [t]. *)
Definition error_logs (t : list Event) : list string :=
  omap (fun e => match e with
                 | EvLog ErrorLevel msg _ => Some msg
                 | _ => None
                 end) t.

End Spec.

Arguments outbound : simpl never.

End client_spec.

(** * Vocabulary for the properties of the ring join policy *)

Module ring_spec.
Import ring alertmanager.

(** How many tokens the generator can take from the candidates: the number
    of distinct candidates that are not used. *)
Fixpoint fresh_count (candidates : list Z) (used : gset Z) : nat :=
  match candidates with
  | [] => O
  | c :: rest =>
      if decide (c ∈ used) then fresh_count rest used
      else S (fresh_count rest ({[c]} ∪ used))
  end.

(** The random source draws enough fresh candidates for [n] tokens outside
    [taken]; only then does the generator return. *)
Definition draws_suffice (random : list Z) (taken : list Z) (n : Z) : Prop :=
  (Z.to_nat n <= fresh_count random (list_to_set taken))%nat.

(** The tokens the instance keeps: those of its prior entry if it has one. *)
Definition inherited (instanceExists : bool) (instanceDesc : InstanceDesc) : list Z :=
  if instanceExists then Tokens instanceDesc else [].

End ring_spec.

(** * Properties of the client *)

Example basicAuth_t1 : basicAuth "t1" "s3cr3t" = "dDE6czNjcjN0".
Proof. reflexivity. Qed.

Example basicAuth_padding : basicAuth "a" "" = "YTo=" /\ basicAuth "ab" "c" = "YWI6Yw==".
Proof. split; reflexivity. Qed.

Example canonical_tenant_key : CanonicalMIMEHeaderKey "X-Scope-OrgID" = "X-Scope-Orgid".
Proof. reflexivity. Qed.

Example canonical_authorization : CanonicalMIMEHeaderKey "Authorization" = "Authorization".
Proof. reflexivity. Qed.


Module client_facts.
Import client client_spec.

Section Facts.
Context `{Library}.

Lemma checkResponse_accepts resp :
  accepted (StatusCode resp) = true ->
  checkResponse resp =
    (None, [EvLog Debug "checking response" [("status", Status resp)]]).
Proof.
  unfold accepted, checkResponse. intros ->. reflexivity.
Qed.

Lemma checkResponse_rejects resp :
  accepted (StatusCode resp) = false ->
  exists msg lvl text,
    checkResponse resp =
      (Some (classify (StatusCode resp)),
       [EvLog Debug "checking response" [("status", Status resp)];
        EvReadAll (Body resp);
        EvLog lvl text [("status", Status resp); ("msg", msg)]]).
Proof.
  unfold accepted, checkResponse, classify. intros ->.
  destruct (StatusCode resp =? 404); eexists _, _, _; reflexivity.
Qed.

Lemma doRequest_ran r path method payload :
  ran r path method payload (doRequest r path method payload).
Proof.
  unfold doRequest.
  destruct (NewRequest method (URL_String (endpoint r) +:+ path) payload)
    as [req0 | err] eqn:Hnew.
  - cbv zeta. fold (outbound r req0).
    destruct (client r (outbound r req0)) as [resp | err] eqn:Hdo.
    + destruct (accepted (StatusCode resp)) eqn:Hacc.
      * rewrite (checkResponse_accepts _ Hacc). cbn.
        eapply ran_accepted; eauto.
      * destruct (checkResponse_rejects _ Hacc) as (msg & lvl & text & ->). cbn.
        eapply ran_rejected; eauto.
    + cbn. eapply ran_failed; eauto.
  - apply ran_unsent; assumption.
Qed.

Lemma NewRequest_inl method url body req :
  NewRequest method url body = inl req ->
  http.ctx req = context.Background /\ Header req = ∅ /\ ReqBody req = body /\
  Method req = (if String.eqb method "" then "GET" else method) /\
  url_Parse url = inl (ReqURL req).
Proof.
  unfold NewRequest. destruct (negb _); [discriminate |].
  destruct (url_Parse url) as [u | err]; [| discriminate].
  intros [= <-]. cbn. auto.
Qed.

Lemma outbound_same r req :
  http.ctx (outbound r req) = http.ctx req /\
  Method (outbound r req) = Method req /\
  ReqURL (outbound r req) = ReqURL req /\
  ReqBody (outbound r req) = ReqBody req.
Proof. unfold outbound. destruct (String.eqb (key r) ""); cbn; auto. Qed.

(** The headers of an outbound request made from a request without headers:
    the tenant header always, the credentials unless the key is empty. *)
Lemma outbound_Header r req :
  Header req = ∅ ->
  Header (outbound r req) !! "X-Scope-Orgid" = Some [id r] /\
  Header (outbound r req) !! "Authorization" =
    (if String.eqb (key r) "" then None
     else Some ["Basic " +:+ basicAuth (id r) (key r)]).
Proof.
  intros Hempty. unfold outbound, AddHeader, SetBasicAuth, Header_Add, Header_Set.
  change (CanonicalMIMEHeaderKey "X-Scope-OrgID") with "X-Scope-Orgid".
  change (CanonicalMIMEHeaderKey "Authorization") with "Authorization".
  destruct (String.eqb (key r) ""); cbn [Header]; rewrite Hempty; split.
  - apply lookup_insert_eq.
  - rewrite lookup_insert_ne by discriminate. apply lookup_empty.
  - rewrite lookup_insert_eq, lookup_insert_ne by discriminate.
    rewrite lookup_empty. reflexivity.
  - rewrite lookup_insert_ne by discriminate. apply lookup_insert_eq.
Qed.

End Facts.

Ltac run_doRequest :=
  match goal with
  | |- context [doRequest ?r ?p ?m ?b] =>
      destruct (doRequest_ran r p m b)
        as [? ?Hnew | ? ? ?Hnew ?Hdo | ? ? ? ? ? ?Hnew ?Hdo ?Hacc
            | ? ? ?Hnew ?Hdo ?Hacc]
  end.

(** Runs an operation in the goal along each of its paths. *)
Ltac run :=
  unfold CreateRuleGroup, DeleteRuleGroup, GetRuleGroup, ListRules, ioutil_ReadAll;
  repeat match goal with
    | |- context [match yaml_Marshal ?g with _ => _ end] =>
        destruct (yaml_Marshal g) eqn:?
    | |- context [doRequest _ _ _ _] => run_doRequest
    | Hacc : accepted (StatusCode ?resp) = true |- context [checkResponse ?resp] =>
        rewrite (checkResponse_accepts _ Hacc)
    | |- context [match read_error ?b with _ => _ end] =>
        destruct (read_error b) eqn:?
    | |- context [if Z.rem ?c 2 >? 0 then _ else _] =>
        destruct (Z.rem c 2 >? 0) eqn:?
    | |- context [match yaml_Unmarshal_RuleGroup ?s with _ => _ end] =>
        destruct (yaml_Unmarshal_RuleGroup s) eqn:?
    | |- context [match yaml_Unmarshal_RuleSet ?s with _ => _ end] =>
        destruct (yaml_Unmarshal_RuleSet s) eqn:?
    | _ => progress (cbv beta iota zeta delta [bind ret emit defer_Close fst snd];
                     cbn)
    end.

Section Sent.
Context `{Library}.

Lemma doRequest_sent r path method payload req :
  In req (sent (snd (doRequest r path method payload))) ->
  built r path method payload req.
Proof.
  run; intros Hin; try contradiction;
    destruct Hin as [<- | []]; eexists; eauto.
Qed.

(** Every request an operation hands to the transport was built by
    [doRequest]. *)
Lemma operations_sent r c ns name rg req :
  In req (sent (snd (CreateRuleGroup r c ns rg)) ++
          sent (snd (DeleteRuleGroup r c ns name)) ++
          sent (snd (GetRuleGroup r c ns name)) ++
          sent (snd (ListRules r c ns))) ->
  exists path method payload, built r path method payload req.
Proof.
  rewrite !in_app_iff. intros [Hin | [Hin | [Hin | Hin]]]; revert Hin.
  - unfold CreateRuleGroup. destruct (yaml_Marshal rg) as [payload | err].
    + intros Hin. exists ("/api/prom/rules/" +:+ ns), "POST", payload.
      apply doRequest_sent. revert Hin. run; auto.
    + cbn. contradiction.
  - intros Hin. exists ("/api/prom/rules/" +:+ ns), "DELETE", "".
    apply doRequest_sent. revert Hin. run; auto.
  - intros Hin.
    exists ("/api/prom/rules/" +:+ ns +:+ "/" +:+ name), "GET", "".
    apply doRequest_sent. revert Hin. run; auto.
  - intros Hin.
    exists (if String.eqb ns "" then "/api/prom/rules"
            else "/api/prom/rules" +:+ "/" +:+ ns), "GET", "".
    apply doRequest_sent. revert Hin. run; auto.
Qed.

End Sent.

(** Settles a hypothesis that an event is in a concrete trace. *)
Ltac trace_cases :=
  repeat match goal with
    | H : False |- _ => destruct H
    | H : _ \/ _ |- _ => destruct H
    | H : EvDo _ _ = EvDo _ _ |- _ => injection H as ? ?; subst
    | H : _ = EvDo _ _ |- _ => discriminate H
    | H : @inl _ _ _ = inr _ |- _ => discriminate H
    | H : @inr _ _ _ = inl _ |- _ => discriminate H
    | H : @inl _ _ _ = inl _ |- _ => injection H as ?; subst
    | H : @inr _ _ _ = inr _ |- _ => injection H as ?; subst
    end.

Section Claims.
Context `{Library}.

(** C6.  Whatever the client's configuration, every request an operation
    hands to the transport carries the tenant header [X-Scope-OrgID] with the
    client's id as its only value, and it carries the [Authorization] header
    of basic authentication for (id, key) exactly when the key is not empty:
    with an empty key there is no [Authorization] header at all. *)
Theorem tenant_header_and_basic_auth
    (r : RulerClient) (c : context.Context) (ns name : string) (rg : RuleGroup)
    (req : Request) :
  In req (sent (snd (CreateRuleGroup r c ns rg)) ++
          sent (snd (DeleteRuleGroup r c ns name)) ++
          sent (snd (GetRuleGroup r c ns name)) ++
          sent (snd (ListRules r c ns))) ->
  Header_Get "X-Scope-OrgID" (Header req) = id r /\
  Header req !! CanonicalMIMEHeaderKey "X-Scope-OrgID" = Some [id r] /\
  Header req !! CanonicalMIMEHeaderKey "Authorization" =
    (if String.eqb (key r) "" then None
     else Some ["Basic " +:+ basicAuth (id r) (key r)]).
Proof.
  intros Hin.
  destruct (operations_sent _ _ _ _ _ _ Hin)
    as (path & method & payload & req0 & Hnew & ->).
  apply NewRequest_inl in Hnew as (_ & Hempty & _).
  destruct (outbound_Header r req0 Hempty) as [Htenant Hauth].
  unfold Header_Get.
  change (CanonicalMIMEHeaderKey "X-Scope-OrgID") with "X-Scope-Orgid".
  change (CanonicalMIMEHeaderKey "Authorization") with "Authorization".
  rewrite Htenant. auto.
Qed.

(** C1.  Every operation takes a context and does not use it: its result
    and its trace are the same for any two contexts, and every request it
    hands to the transport carries the background context, which is never
    cancelled and has no deadline. *)
Theorem context_is_not_propagated
    (r : RulerClient) (c c' : context.Context) (ns name : string) (rg : RuleGroup) :
  (CreateRuleGroup r c ns rg = CreateRuleGroup r c' ns rg /\
   DeleteRuleGroup r c ns name = DeleteRuleGroup r c' ns name /\
   GetRuleGroup r c ns name = GetRuleGroup r c' ns name /\
   ListRules r c ns = ListRules r c' ns) /\
  Forall (fun req => http.ctx req = context.Background /\
                     context.Err (http.ctx req) = None)
    (sent (snd (CreateRuleGroup r c ns rg)) ++
     sent (snd (DeleteRuleGroup r c ns name)) ++
     sent (snd (GetRuleGroup r c ns name)) ++
     sent (snd (ListRules r c ns))).
Proof.
  split; [repeat split |].
  apply Forall_forall. intros req Hin%list_elem_of_In.
  destruct (operations_sent _ _ _ _ _ _ Hin)
    as (path & method & payload & req0 & Hnew & ->).
  apply NewRequest_inl in Hnew as (Hctx & _).
  destruct (outbound_same r req0) as (-> & _). rewrite Hctx. auto.
Qed.

(** C2.  When the transport fails with [e], [CreateRuleGroup],
    [DeleteRuleGroup] and [ListRules] return [e] itself, and [GetRuleGroup]
    returns [e] wrapped with the message "failed to perform request". *)
Theorem transport_error_returned
    (r : RulerClient) (c : context.Context) (ns name : string) (rg : RuleGroup)
    (e : error) :
  (failed (snd (CreateRuleGroup r c ns rg)) e ->
   fst (CreateRuleGroup r c ns rg) = Some e) /\
  (failed (snd (DeleteRuleGroup r c ns name)) e ->
   fst (DeleteRuleGroup r c ns name) = Some e) /\
  (failed (snd (ListRules r c ns)) e ->
   fst (ListRules r c ns) = inr e) /\
  (failed (snd (GetRuleGroup r c ns name)) e ->
   fst (GetRuleGroup r c ns name) = inr (errors_Wrap e "failed to perform request")).
Proof.
  unfold failed.
  repeat split; run; intros [req Hin]; trace_cases; reflexivity.
Qed.

(** What the operations return when the server answers with status 404:
    [CreateRuleGroup], [DeleteRuleGroup] and [ListRules] return the sentinel
    [ErrResourceNotFound] itself; [GetRuleGroup] returns it wrapped with the
    message "failed to perform request", so that the sentinel is the cause of
    the returned error and not the returned error. *)
Theorem not_found_classification
    (r : RulerClient) (c : context.Context) (ns name : string) (rg : RuleGroup)
    (resp : Response) :
  StatusCode resp = 404 ->
  (answered (snd (CreateRuleGroup r c ns rg)) resp ->
   fst (CreateRuleGroup r c ns rg) = Some ErrResourceNotFound) /\
  (answered (snd (DeleteRuleGroup r c ns name)) resp ->
   fst (DeleteRuleGroup r c ns name) = Some ErrResourceNotFound) /\
  (answered (snd (ListRules r c ns)) resp ->
   fst (ListRules r c ns) = inr ErrResourceNotFound) /\
  (answered (snd (GetRuleGroup r c ns name)) resp ->
   fst (GetRuleGroup r c ns name) =
     inr (errors_Wrap ErrResourceNotFound "failed to perform request") /\
   forall e, fst (GetRuleGroup r c ns name) = inr e ->
             errors_Cause e = ErrResourceNotFound /\ e <> ErrResourceNotFound).
Proof.
  intros Hcode. unfold answered.
  assert (Hrej : accepted 404 = false) by reflexivity.
  assert (Hnf : classify 404 = ErrResourceNotFound) by reflexivity.
  split; [| split; [| split]]; run; intros [req Hin]; trace_cases;
    rewrite Hcode in *; try congruence.
  rewrite Hnf. split; [reflexivity |].
  intros e [= <-]. split; [reflexivity | discriminate].
Qed.

(** C7.  Of the three codec failures only the decode failure of
    [GetRuleGroup] is wrapped, with "unable to unmarshal response".  An
    encode failure in [CreateRuleGroup] is returned as it is, before any
    request is made, and a decode failure in [ListRules] is returned as it
    is. *)
Theorem codec_error_wrapping
    (r : RulerClient) (c : context.Context) (ns name : string) (rg : RuleGroup)
    (e : error) :
  (yaml_Marshal rg = inr e ->
   CreateRuleGroup r c ns rg = (Some e, [])) /\
  (forall resp,
     answered (snd (GetRuleGroup r c ns name)) resp ->
     accepted (StatusCode resp) = true ->
     read_error (Body resp) = None ->
     yaml_Unmarshal_RuleGroup (content (Body resp)) = inr e ->
     fst (GetRuleGroup r c ns name) =
       inr (errors_Wrap e "unable to unmarshal response")) /\
  (forall resp,
     answered (snd (ListRules r c ns)) resp ->
     accepted (StatusCode resp) = true ->
     read_error (Body resp) = None ->
     yaml_Unmarshal_RuleSet (content (Body resp)) = inr e ->
     fst (ListRules r c ns) = inr e).
Proof.
  split; [| split].
  - unfold CreateRuleGroup. intros ->. reflexivity.
  - intros resp. unfold answered. run;
      intros [req Hin] Hok Hread Hyaml; trace_cases; congruence.
  - intros resp. unfold answered. run;
      intros [req Hin] Hok Hread Hyaml; trace_cases; congruence.
Qed.

(** C8.  A client whose base URL renders as "http://r.example/" creates a
    rule group in the namespace "alerts" with exactly one request, a POST of
    the YAML payload, and the URL of that request is the concatenation of the
    base and the path, "http://r.example//api/prom/rules/alerts", in which
    the slash that ends the base and the slash that starts the path both
    stand. *)
Theorem create_url_is_base_then_path
    (net : http.Client) (cfg : Config) (r : RulerClient) (c : context.Context)
    (rg : RuleGroup) (payload : string) (u : URL) :
  cfg = {| Key := "s3cr3t"; Address := "http://r.example/"; ID := "t1" |} ->
  fst (New net cfg) = inl r ->
  URL_String (endpoint r) = "http://r.example/" ->
  url_Parse "http://r.example//api/prom/rules/alerts" = inl u ->
  yaml_Marshal rg = inl payload ->
  URL_String (endpoint r) +:+ "/api/prom/rules/" +:+ "alerts" =
    "http://r.example//api/prom/rules/alerts" /\
  exists req,
    sent (snd (CreateRuleGroup r c "alerts" rg)) = [req] /\
    Method req = "POST" /\ ReqURL req = u /\ ReqBody req = payload /\
    key r = "s3cr3t" /\ id r = "t1".
Proof.
  intros -> Hnew Hbase Hurl Hyaml.
  assert (Hr : key r = "s3cr3t" /\ id r = "t1").
  { revert Hnew. unfold New. cbn.
    destruct (url_Parse "http://r.example/"); cbn; intros [= <-]; auto. }
  split; [rewrite Hbase; reflexivity |].
  unfold CreateRuleGroup. rewrite Hyaml.
  assert (Hreq : NewRequest "POST"
            (URL_String (endpoint r) +:+ "/api/prom/rules/" +:+ "alerts") payload =
          inl {| http.ctx := context.Background; Method := "POST"; ReqURL := u;
                 Header := ∅; ReqBody := payload |}).
  { rewrite Hbase.
    change ("http://r.example/" +:+ "/api/prom/rules/" +:+ "alerts")
      with "http://r.example//api/prom/rules/alerts".
    unfold NewRequest. rewrite Hurl. reflexivity. }
  run; try congruence;
    rewrite Hreq in *; trace_cases;
    (eexists; split; [reflexivity |]);
    destruct (outbound_same r
      {| http.ctx := context.Background; Method := "POST"; ReqURL := u;
         Header := ∅; ReqBody := payload |}) as (_ & -> & -> & ->); tauto.
Qed.

(** No operation reads a body twice, so what [ioutil_ReadAll] gives does not
    depend on earlier reads. *)
Lemma body_read_at_most_once
    (r : RulerClient) (c : context.Context) (ns name : string) (rg : RuleGroup) :
  (length (drained (snd (CreateRuleGroup r c ns rg))) <= 1)%nat /\
  (length (drained (snd (DeleteRuleGroup r c ns name))) <= 1)%nat /\
  (length (drained (snd (GetRuleGroup r c ns name))) <= 1)%nat /\
  (length (drained (snd (ListRules r c ns))) <= 1)%nat.
Proof.
  split; [| split; [| split]]; run; lia.
Qed.

(** X11.  Whether the body of a response is closed when an operation returns:
    the body of an accepted response is, the body of a rejected one is not. *)
Lemma body_closure
    (r : RulerClient) (c : context.Context) (ns name : string) (rg : RuleGroup)
    (resp : Response) :
  let after (t : list Event) :=
    answered t resp ->
    opened t = [Body resp] /\
    closed t = if accepted (StatusCode resp) then [Body resp] else [] in
  after (snd (CreateRuleGroup r c ns rg)) /\
  after (snd (DeleteRuleGroup r c ns name)) /\
  after (snd (GetRuleGroup r c ns name)) /\
  after (snd (ListRules r c ns)).
Proof.
  cbv zeta. unfold answered.
  split; [| split; [| split]]; run; intros [req Hin]; trace_cases;
    match goal with Hacc : accepted _ = _ |- _ => rewrite Hacc end;
    split; reflexivity.
Qed.

(** X12.  What [DeleteRuleGroup] returns for an accepted response whose body
    can be read: an error exactly when the status is odd. *)
Lemma delete_parity
    (r : RulerClient) (c : context.Context) (ns name : string) (resp : Response) :
  answered (snd (DeleteRuleGroup r c ns name)) resp ->
  accepted (StatusCode resp) = true ->
  read_error (Body resp) = None ->
  fst (DeleteRuleGroup r c ns name) =
    if Z.odd (StatusCode resp)
    then Some (fmt_Errorf ("error occured, " +:+ content (Body resp)))
    else None.
Proof.
  assert (Hodd : forall z, accepted z = true -> (Z.rem z 2 >? 0) = Z.odd z).
  { unfold accepted. intros z [Hlo _]%andb_prop. apply Z.leb_le in Hlo.
    rewrite Z.rem_mod_nonneg by lia. rewrite Zmod_odd.
    destruct (Z.odd z); reflexivity. }
  unfold answered. run; intros [req Hin] Hok Hread; trace_cases;
    try congruence;
    rewrite <- (Hodd _ Hok);
    match goal with Hrem : (_ >? 0) = _ |- _ => rewrite Hrem end; reflexivity.
Qed.

End Claims.
End client_facts.

(** * The client on concrete runs *)

Module client_runs.
Import client client_spec client_facts run.

(** [New] on the scenario's configuration. *)
Example New_scenario (net : @http.Client (textual true)) :
  fst (New net scenario_config) = inl (scenario_client true net).
Proof. reflexivity. Qed.

(** C1, refuted as stated: called with a cancelled context, over a transport
    that gives up on a request whose context is done, [CreateRuleGroup]
    succeeds, and the one request it made carries the background context. *)
Lemma cancelled_context_is_ignored :
  context.Err cancelled = Some context_Canceled /\
  fst (CreateRuleGroup (scenario_client true honouring_context) cancelled
         "alerts" "name: g1") = None /\
  List.map http.ctx
    (sent (snd (CreateRuleGroup (scenario_client true honouring_context) cancelled
                  "alerts" "name: g1"))) = [context.Background].
Proof. repeat split. Qed.

(** C2, refuted as stated: on a network that refuses the connection,
    [GetRuleGroup] returns the transport's error wrapped. *)
Lemma get_wraps_transport_error :
  failed (snd (GetRuleGroup (scenario_client true refusing) background "alerts" "g1"))
    connection_refused /\
  fst (GetRuleGroup (scenario_client true refusing) background "alerts" "g1") =
    inr (errors_Wrap connection_refused "failed to perform request") /\
  fst (GetRuleGroup (scenario_client true refusing) background "alerts" "g1") <>
    inr connection_refused.
Proof.
  split; [| split; [reflexivity | discriminate]].
  eexists. cbn. right. left. reflexivity.
Qed.

(** C2 on a network that refuses the connection. *)
Lemma transport_error_returned_refused :
  fst (CreateRuleGroup (scenario_client true refusing) background "alerts" "name: g1") =
    Some connection_refused /\
  fst (DeleteRuleGroup (scenario_client true refusing) background "alerts" "g1") =
    Some connection_refused /\
  fst (ListRules (scenario_client true refusing) background "alerts") =
    inr connection_refused /\
  fst (GetRuleGroup (scenario_client true refusing) background "alerts" "g1") =
    inr (errors_Wrap connection_refused "failed to perform request").
Proof.
  destruct (transport_error_returned (scenario_client true refusing) background
              "alerts" "g1" ("name: g1" : @RuleGroup (textual true))
              connection_refused) as (HC & HD & HL & HG).
  split; [apply HC | split; [apply HD | split; [apply HL | apply HG]]];
    (eexists; cbn; right; left; reflexivity).
Defined.

(** C3 at a 404: [GetRuleGroup] returns with the body of the response still
    open. *)
Theorem body_left_open_on_404 :
  fst (GetRuleGroup (scenario_client true not_found) background "alerts" "gX") =
    inr (errors_Wrap ErrResourceNotFound "failed to perform request") /\
  opened (snd (GetRuleGroup (scenario_client true not_found) background "alerts" "gX")) =
    [{| content := "not found"; read_error := None |}] /\
  closed (snd (GetRuleGroup (scenario_client true not_found) background "alerts" "gX")) =
    [].
Proof. repeat split. Qed.

(** C4 at a 201: the parity check of [DeleteRuleGroup] is reached and turns
    the accepted response into an error. *)
Theorem delete_fails_on_201 :
  accepted 201 = true /\
  fst (DeleteRuleGroup (scenario_client true created) background "alerts" "g1") =
    Some (fmt_Errorf "error occured, ok") /\
  fst (CreateRuleGroup (scenario_client true created) background "alerts" "name: g1") =
    None.
Proof. repeat split. Qed.

(** C5 at a 404: [GetRuleGroup] returns the sentinel wrapped with "failed to
    perform request", a value that is not [ErrResourceNotFound], where
    [CreateRuleGroup], [DeleteRuleGroup] and [ListRules] return the sentinel
    itself for the same answer. *)
Lemma get_wraps_not_found :
  answered (snd (GetRuleGroup (scenario_client true not_found) background "alerts" "gX"))
    {| Status := "404 Not Found"; StatusCode := 404;
       Body := {| content := "not found"; read_error := None |} |} /\
  fst (GetRuleGroup (scenario_client true not_found) background "alerts" "gX") =
    inr (errors_Wrap ErrResourceNotFound "failed to perform request") /\
  fst (GetRuleGroup (scenario_client true not_found) background "alerts" "gX") <>
    inr ErrResourceNotFound /\
  fst (CreateRuleGroup (scenario_client true not_found) background "alerts" "name: g1") =
    Some ErrResourceNotFound /\
  fst (DeleteRuleGroup (scenario_client true not_found) background "alerts" "gX") =
    Some ErrResourceNotFound /\
  fst (ListRules (scenario_client true not_found) background "alerts") =
    inr ErrResourceNotFound.
Proof.
  split; [| split; [reflexivity | split; [discriminate | repeat split]]].
  eexists. cbn. right. left. reflexivity.
Qed.

(** The four operations on a server that answers 404. *)
Lemma not_found_classification_404 :
  fst (CreateRuleGroup (scenario_client true not_found) background "alerts" "name: g1") =
    Some ErrResourceNotFound /\
  fst (DeleteRuleGroup (scenario_client true not_found) background "alerts" "g1") =
    Some ErrResourceNotFound /\
  fst (ListRules (scenario_client true not_found) background "alerts") =
    inr ErrResourceNotFound /\
  fst (GetRuleGroup (scenario_client true not_found) background "alerts" "gX") =
    inr (errors_Wrap ErrResourceNotFound "failed to perform request").
Proof.
  destruct (not_found_classification (scenario_client true not_found) background
              "alerts" "g1" ("name: g1" : @RuleGroup (textual true))
              {| Status := "404 Not Found"; StatusCode := 404;
                 Body := {| content := "not found"; read_error := None |} |}
              eq_refl) as (HC & HD & HL & _).
  destruct (not_found_classification (scenario_client true not_found) background
              "alerts" "gX" ("name: g1" : @RuleGroup (textual true))
              {| Status := "404 Not Found"; StatusCode := 404;
                 Body := {| content := "not found"; read_error := None |} |}
              eq_refl) as (_ & _ & _ & HG).
  split; [apply HC | split; [apply HD | split; [apply HL | apply HG]]];
    (eexists; cbn; right; left; reflexivity).
Defined.

Example scenario_request_sent :
  sent (snd (CreateRuleGroup (scenario_client true no_content) background
               "alerts" "name: g1")) = [scenario_request].
Proof. vm_compute. reflexivity. Qed.

(** C6 on the first scenario: tenant header "t1" and the credentials
    t1:s3cr3t. *)
Lemma tenant_header_and_basic_auth_scenario :
  Header_Get "X-Scope-OrgID" (Header scenario_request) = "t1" /\
  Header scenario_request !! "X-Scope-Orgid" = Some ["t1"] /\
  Header scenario_request !! "Authorization" = Some ["Basic dDE6czNjcjN0"].
Proof.
  apply (tenant_header_and_basic_auth (scenario_client true no_content) background
           "alerts" "g1" ("name: g1" : @RuleGroup (textual true)) scenario_request).
  apply in_or_app. left. vm_compute. left. reflexivity.
Defined.

(** With an empty key the request has the tenant header and no
    [Authorization] header. *)
Example no_key_no_authorization :
  List.map (fun req => (Header req !! "X-Scope-Orgid", Header req !! "Authorization"))
    (sent (snd (ListRules
                  {| key := ""; id := "t1";
                     endpoint := "http://r.example" : @URL (textual true);
                     client := no_content |} background ""))) =
  [(Some ["t1"], None)].
Proof. vm_compute. reflexivity. Qed.

(** C7, refuted as stated: when the codec fails, [CreateRuleGroup] and
    [ListRules] return the codec's error itself, which carries neither
    context. *)
Lemma codec_errors_returned_as_they_are :
  CreateRuleGroup (scenario_client false (answering "200 OK" 200 "{")) background
    "alerts" "name: g1" = (Some yaml_error, []) /\
  fst (ListRules (scenario_client false (answering "200 OK" 200 "{")) background
         "alerts") = inr yaml_error /\
  wrapped_with "failed to perform request" yaml_error = false /\
  wrapped_with "unable to unmarshal response" yaml_error = false.
Proof. repeat split. Qed.

(** C7 on a codec that fails. *)
Lemma codec_error_wrapping_failing_codec :
  CreateRuleGroup (scenario_client false (answering "200 OK" 200 "{")) background
    "alerts" "name: g1" = (Some yaml_error, []) /\
  fst (GetRuleGroup (scenario_client false (answering "200 OK" 200 "{")) background
         "alerts" "g1") = inr (errors_Wrap yaml_error "unable to unmarshal response") /\
  fst (ListRules (scenario_client false (answering "200 OK" 200 "{")) background
         "alerts") = inr yaml_error.
Proof.
  destruct (codec_error_wrapping
              (scenario_client false (answering "200 OK" 200 "{")) background
              "alerts" "g1" ("name: g1" : @RuleGroup (textual false)) yaml_error)
    as (HC & HG & HL).
  split; [apply HC; reflexivity | split].
  - apply (HG {| Status := "200 OK"; StatusCode := 200;
                 Body := {| content := "{"; read_error := None |} |});
      try reflexivity.
    eexists. cbn. right. left. reflexivity.
  - apply (HL {| Status := "200 OK"; StatusCode := 200;
                 Body := {| content := "{"; read_error := None |} |});
      try reflexivity.
    eexists. cbn. right. left. reflexivity.
Defined.

(** C8, refuted as stated: the one request of the scenario is a POST to the
    base followed by the path, with two slashes between host and path. *)
Lemma create_url_has_two_slashes :
  fst (New no_content scenario_config) = inl (scenario_client true no_content) /\
  List.map (fun req => (Method req, URL_String (ReqURL req)))
    (sent (snd (CreateRuleGroup (scenario_client true no_content) background
                  "alerts" "name: g1"))) =
    [("POST", "http://r.example//api/prom/rules/alerts")] /\
  "http://r.example//api/prom/rules/alerts" <> "http://r.example/api/prom/rules/alerts".
Proof. split; [reflexivity | split; [vm_compute; reflexivity | discriminate]]. Qed.

(** C8 on the textual libraries. *)
Lemma create_url_is_base_then_path_scenario :
  "http://r.example/" +:+ "/api/prom/rules/" +:+ "alerts" =
    "http://r.example//api/prom/rules/alerts" /\
  exists req : @Request (textual true),
    sent (snd (CreateRuleGroup (scenario_client true no_content) background
                 "alerts" "name: g1")) = [req] /\
    Method req = "POST" /\
    ReqURL req = "http://r.example//api/prom/rules/alerts" /\
    ReqBody req = "name: g1" /\
    key (scenario_client true no_content) = "s3cr3t" /\
    id (scenario_client true no_content) = "t1".
Proof.
  apply (create_url_is_base_then_path no_content scenario_config
           (scenario_client true no_content) background
           ("name: g1" : @RuleGroup (textual true)) "name: g1"
           ("http://r.example//api/prom/rules/alerts" : @URL (textual true)));
    reflexivity.
Defined.

End client_runs.


(** * Properties of the ring join policy *)

Module ring_facts.
Import ring alertmanager ring_spec.

Lemma take_fresh_length candidates :
  forall used n ts, take_fresh candidates used n = Some ts -> length ts = n.
Proof.
  induction candidates as [| c rest IH]; intros used [| n] ts; simpl;
    try (intros [= <-]; reflexivity); try discriminate.
  destruct (decide (c ∈ used)).
  - apply IH.
  - destruct (take_fresh rest ({[c]} ∪ used) n) as [l |] eqn:Hl; simpl;
      [| discriminate].
    intros [= <-]. simpl. f_equal. eapply IH; eassumption.
Qed.

Lemma take_fresh_unused candidates :
  forall used n ts,
    take_fresh candidates used n = Some ts ->
    (forall t, t ∈ ts -> t ∉ used) /\ NoDup ts.
Proof.
  induction candidates as [| c rest IH]; intros used [| n] ts; simpl;
    try (intros [= <-]; split; [set_solver | constructor]); try discriminate.
  destruct (decide (c ∈ used)) as [Hc | Hc].
  - apply IH.
  - destruct (take_fresh rest ({[c]} ∪ used) n) as [l |] eqn:Hl; simpl;
      [| discriminate].
    intros [= <-]. destruct (IH _ _ _ Hl) as [Hfresh Hnodup]. split.
    + intros t [-> | Ht]%elem_of_cons; [assumption |].
      apply Hfresh, not_elem_of_union in Ht as [_ Hunused]. assumption.
    + constructor; [| assumption].
      intros Hin. apply (Hfresh c Hin), elem_of_union. left.
      apply elem_of_singleton. reflexivity.
Qed.

Lemma take_fresh_drawn candidates :
  forall used n ts,
    take_fresh candidates used n = Some ts -> forall t, t ∈ ts -> t ∈ candidates.
Proof.
  induction candidates as [| c rest IH]; intros used [| n] ts; simpl;
    try (intros [= <-]; set_solver); try discriminate.
  destruct (decide (c ∈ used)).
  - intros Hts t Ht. right. eapply IH; eassumption.
  - destruct (take_fresh rest ({[c]} ∪ used) n) as [l |] eqn:Hl; simpl;
      [| discriminate].
    intros [= <-] t [-> | Ht]%elem_of_cons; [left | right; eapply IH; eassumption].
Qed.

Lemma take_fresh_returns candidates :
  forall used n,
    (n <= fresh_count candidates used)%nat ->
    exists ts, take_fresh candidates used n = Some ts.
Proof.
  induction candidates as [| c rest IH]; intros used [| n]; simpl;
    try (intros _; eexists; reflexivity); try lia.
  destruct (decide (c ∈ used)).
  - apply IH.
  - intros Hn. destruct (IH ({[c]} ∪ used) n) as [l ->]; [lia |].
    eexists; reflexivity.
Qed.

(** The generator, when it returns, returns as many tokens as asked for (none
    for a count that is not positive), all different and none of them
    taken. *)
Lemma GenerateTokens_returned random numTokens taken ts :
  GenerateTokens random numTokens taken = Some ts ->
  length ts = Z.to_nat numTokens /\
  NoDup ts /\
  (forall t, t ∈ ts -> t ∉ taken) /\
  (forall t, t ∈ ts -> t ∈ random).
Proof.
  unfold GenerateTokens. destruct (numTokens <=? 0) eqn:Hn.
  - intros [= <-]. apply Z.leb_le in Hn.
    replace (Z.to_nat numTokens) with O by lia.
    repeat split; [constructor | set_solver | set_solver].
  - intros Hts. destruct (take_fresh_unused _ _ _ _ Hts) as [Hfresh Hnodup].
    repeat split.
    + eapply take_fresh_length; eassumption.
    + assumption.
    + intros t Ht Htaken. apply (Hfresh t Ht). set_solver.
    + eapply take_fresh_drawn; eassumption.
Qed.

(** The generator returns when the random source draws enough. *)
Lemma GenerateTokens_returns random numTokens taken :
  draws_suffice random taken numTokens ->
  exists ts, GenerateTokens random numTokens taken = Some ts.
Proof.
  unfold draws_suffice, GenerateTokens. intros Hn.
  destruct (numTokens <=? 0); [eexists; reflexivity |].
  apply take_fresh_returns. assumption.
Qed.

(** The taken tokens of a descriptor hold the tokens of each of its
    entries. *)
Lemma TokensFor_taken (d : Desc) (id id' : string) (inst : InstanceDesc) (t : Z) :
  Ingesters d !! id' = Some inst ->
  t ∈ Tokens inst ->
  t ∈ snd (TokensFor d id).
Proof.
  intros Hlook Ht. unfold TokensFor. simpl.
  apply list_elem_of_In, in_concat.
  exists (Tokens inst). split; [| apply list_elem_of_In; assumption].
  apply in_map_iff. exists (id', inst). split; [reflexivity |].
  apply list_elem_of_In, elem_of_map_to_list. assumption.
Qed.

(** What [OnRingInstanceRegister] returns when the generator returns. *)
Lemma OnRingInstanceRegister_returned
    (RingNumTokens : Z) (random : list Z) (ringDesc : Desc) (instanceExists : bool)
    (instanceID : string) (instanceDesc : InstanceDesc) :
  draws_suffice random (snd (TokensFor ringDesc instanceID))
    (RingNumTokens - Z.of_nat (length (inherited instanceExists instanceDesc))) ->
  exists newTokens,
    GenerateTokens random
      (RingNumTokens - Z.of_nat (length (inherited instanceExists instanceDesc)))
      (snd (TokensFor ringDesc instanceID)) = Some newTokens /\
    OnRingInstanceRegister RingNumTokens random ringDesc instanceExists
      instanceID instanceDesc =
    Some (JOINING, inherited instanceExists instanceDesc ++ newTokens).
Proof.
  intros Hdraws. destruct (GenerateTokens_returns _ _ _ Hdraws) as [ts Hts].
  exists ts. split; [assumption |].
  unfold OnRingInstanceRegister. fold (inherited instanceExists instanceDesc).
  rewrite Hts. reflexivity.
Qed.

(** C9.  When the instance keeps at most [RingNumTokens] tokens (it has no
    entry, or its prior entry holds at most that many) and the random source
    draws enough fresh candidates, [OnRingInstanceRegister] returns, and the
    token list it returns has length [RingNumTokens]. *)
Theorem register_token_count
    (RingNumTokens : Z) (random : list Z) (ringDesc : Desc) (instanceExists : bool)
    (instanceID : string) (instanceDesc : InstanceDesc) :
  Z.of_nat (length (inherited instanceExists instanceDesc)) <= RingNumTokens ->
  draws_suffice random (snd (TokensFor ringDesc instanceID))
    (RingNumTokens - Z.of_nat (length (inherited instanceExists instanceDesc))) ->
  exists tokens,
    OnRingInstanceRegister RingNumTokens random ringDesc instanceExists
      instanceID instanceDesc = Some (JOINING, tokens) /\
    Z.of_nat (length tokens) = RingNumTokens.
Proof.
  intros Hquota Hdraws.
  destruct (OnRingInstanceRegister_returned _ _ _ _ _ _ Hdraws)
    as (newTokens & Hgen & ->).
  eexists. split; [reflexivity |].
  apply GenerateTokens_returned in Hgen as (Hlen & _).
  rewrite length_app, Hlen. lia.
Qed.

(** An instance whose prior entry holds more than [RingNumTokens] tokens
    keeps them all and gets no new one. *)
Lemma register_keeps_excess_tokens
    (RingNumTokens : Z) (random : list Z) (ringDesc : Desc)
    (instanceID : string) (instanceDesc : InstanceDesc) :
  RingNumTokens < Z.of_nat (length (Tokens instanceDesc)) ->
  OnRingInstanceRegister RingNumTokens random ringDesc true instanceID instanceDesc =
    Some (JOINING, Tokens instanceDesc).
Proof.
  intros Hexcess. unfold OnRingInstanceRegister, GenerateTokens.
  replace (_ <=? 0) with true by (symmetry; apply Z.leb_le; lia).
  rewrite app_nil_r. reflexivity.
Qed.

(** C10.  An instance that registers again with the prior tokens [t1; t2],
    under a quota of 128 tokens and a descriptor whose taken tokens are the
    foreign tokens [F] and [t1], [t2], gets 128 tokens: [t1] and [t2] first,
    in that order, and then 126 tokens that are not in [F] and are neither
    [t1] nor [t2]; the state returned is JOINING.  Whatever the arguments,
    and so whether or not the instance existed, the state returned is
    JOINING. *)
Theorem rejoin_keeps_tokens_and_joins
    (random : list Z) (ringDesc : Desc) (instanceID : string)
    (instanceDesc : InstanceDesc) (t1 t2 : Z) (F : list Z) :
  Tokens instanceDesc = [t1; t2] ->
  (forall t, t ∈ snd (TokensFor ringDesc instanceID) <-> (t ∈ F \/ t = t1 \/ t = t2)) ->
  draws_suffice random (snd (TokensFor ringDesc instanceID)) 126 ->
  (exists rest,
     OnRingInstanceRegister 128 random ringDesc true instanceID instanceDesc =
       Some (JOINING, t1 :: t2 :: rest) /\
     length (t1 :: t2 :: rest) = 128%nat /\
     length rest = 126%nat /\
     (forall t, t ∈ rest -> (t ∉ F) /\ t <> t1 /\ t <> t2)) /\
  (forall instanceExists instanceDesc',
     draws_suffice random (snd (TokensFor ringDesc instanceID))
       (128 - Z.of_nat (length (inherited instanceExists instanceDesc'))) ->
     exists tokens,
       OnRingInstanceRegister 128 random ringDesc instanceExists instanceID
         instanceDesc' = Some (JOINING, tokens)) /\
  (forall quota random' ringDesc' instanceExists instanceID' instanceDesc' state tokens,
     OnRingInstanceRegister quota random' ringDesc' instanceExists instanceID'
       instanceDesc' = Some (state, tokens) ->
     state = JOINING).
Proof.
  intros Hprior Htaken Hdraws. split; [| split].
  - destruct (OnRingInstanceRegister_returned 128 random ringDesc true
                instanceID instanceDesc) as (rest & Hgen & Hreg).
    { unfold inherited. rewrite Hprior. exact Hdraws. }
    unfold inherited in Hgen, Hreg. rewrite Hprior in Hgen, Hreg.
    apply GenerateTokens_returned in Hgen as (Hlen & _ & Hfresh & _).
    exists rest. simpl in Hlen, Hreg.
    split; [exact Hreg |]. split; [simpl; rewrite Hlen; reflexivity |].
    split; [rewrite Hlen; reflexivity |].
    intros t Ht. specialize (Hfresh t Ht).
    repeat split; intros Hbad; apply Hfresh, Htaken; tauto.
  - intros instanceExists instanceDesc' Hdraws'.
    destruct (OnRingInstanceRegister_returned _ _ _ _ _ _ Hdraws')
      as (newTokens & _ & ->).
    eexists. reflexivity.
  - intros quota random' ringDesc' instanceExists instanceID' instanceDesc'
      state tokens.
    unfold OnRingInstanceRegister.
    destruct (GenerateTokens _ _ _); [| discriminate].
    intros [= <- _]. reflexivity.
Qed.

End ring_facts.

(** * The ring join policy on concrete runs *)

Module ring_runs.
Import ring alertmanager ring_spec ring_facts run.

(** C9, refuted as stated: under a quota of 128 an instance that registers
    again with 129 prior tokens gets those 129 tokens back. *)
Lemma register_returns_129_tokens :
  OnRingInstanceRegister 128 (counting 200) two_instances true "am-1" crowded =
    Some (JOINING, Tokens crowded) /\
  length (Tokens crowded) = 129%nat.
Proof. split; reflexivity. Qed.

(** C9 on a new instance, with a quota of 128. *)
Lemma register_token_count_new_instance :
  exists tokens,
    OnRingInstanceRegister 128 (counting 200) two_instances false "am-3" (entry []) =
      Some (JOINING, tokens) /\
    Z.of_nat (length tokens) = 128.
Proof.
  apply (register_token_count 128 (counting 200) two_instances false "am-3" (entry [])).
  - vm_compute. discriminate.
  - unfold draws_suffice. vm_compute. lia.
Defined.

(** C10 on the ring of two: am-1 registers again. *)
Lemma rejoin_am_1 :
  exists rest,
    OnRingInstanceRegister 128 (counting 200) two_instances true "am-1"
      (entry [1001; 1005]) = Some (JOINING, 1001 :: 1005 :: rest) /\
    length (1001 :: 1005 :: rest) = 128%nat /\
    length rest = 126%nat /\
    (forall t, t ∈ rest -> (t ∉ [7; 1003]) /\ t <> 1001 /\ t <> 1005).
Proof.
  apply (rejoin_keeps_tokens_and_joins (counting 200) two_instances "am-1"
           (entry [1001; 1005]) 1001 1005 [7; 1003]).
  - reflexivity.
  - intros t.
    replace (snd (TokensFor two_instances "am-1")) with [1001; 1005; 7; 1003]
      by (vm_compute; reflexivity).
    rewrite !elem_of_cons, elem_of_nil. tauto.
  - unfold draws_suffice. vm_compute. lia.
Defined.

(** The first tokens of that run: 1001 and 1003 are drawn and skipped. *)
Example rejoin_am_1_first_tokens :
  option_map (fun r => take 5 (snd r))
    (OnRingInstanceRegister 128 (counting 200) two_instances true "am-1"
       (entry [1001; 1005])) = Some [1001; 1005; 1000; 1002; 1004].
Proof. vm_compute. reflexivity. Qed.

End ring_runs.

(** * Further properties of the client *)

Module client_more.
Import client client_spec client_facts run.

(** Runs an operation in the goal along each of its paths, keeping every
    event of the trace as the code makes it. *)
Ltac run_exact :=
  unfold CreateRuleGroup, DeleteRuleGroup, GetRuleGroup, ListRules,
    doRequest, checkResponse, ioutil_ReadAll;
  repeat match goal with
    | |- context [match yaml_Marshal ?g with _ => _ end] =>
        destruct (yaml_Marshal g) eqn:?
    | |- context [match NewRequest ?m ?u ?b with _ => _ end] =>
        destruct (NewRequest m u b) eqn:?
    | |- context [match client ?r ?q with _ => _ end] =>
        destruct (client r q) eqn:?
    | |- context [if (200 <=? ?c) && (?c <=? 299) then _ else _] =>
        destruct ((200 <=? c) && (c <=? 299)) eqn:?
    | |- context [if ?c =? 404 then _ else _] =>
        destruct (c =? 404) eqn:?
    | |- context [match read_error ?b with _ => _ end] =>
        destruct (read_error b) eqn:?
    | |- context [if Z.rem ?c 2 >? 0 then _ else _] =>
        destruct (Z.rem c 2 >? 0) eqn:?
    | |- context [match yaml_Unmarshal_RuleGroup ?s with _ => _ end] =>
        destruct (yaml_Unmarshal_RuleGroup s) eqn:?
    | |- context [match yaml_Unmarshal_RuleSet ?s with _ => _ end] =>
        destruct (yaml_Unmarshal_RuleSet s) eqn:?
    | _ => progress (cbv beta iota zeta delta [bind ret emit defer_Close fst snd];
                     cbn)
    end.

Section More.
Context `{Library}.

Lemma accepted_iff (code : Z) : accepted code = true <-> 200 <= code <= 299.
Proof.
  unfold accepted. rewrite andb_true_iff, !Z.leb_le. tauto.
Qed.

Lemma accepted_not (code : Z) : accepted code = false <-> ~ 200 <= code <= 299.
Proof.
  rewrite <- accepted_iff. destruct (accepted code); split; intros; congruence.
Qed.

(** X1.  [checkResponse] accepts exactly the statuses 200 to 299.  Of the
    others only 404 gives the sentinel [ErrResourceNotFound]; every other one
    gives the error "failed request to the ruler api".  The error depends on
    the status alone, not on the body nor on whether the body could be read;
    the body is read only for a status that is not accepted, and it is never
    closed here. *)
Theorem checkResponse_classifies (r : Response) :
  (fst (checkResponse r) = None <-> 200 <= StatusCode r <= 299) /\
  (fst (checkResponse r) = Some ErrResourceNotFound <-> StatusCode r = 404) /\
  (fst (checkResponse r) = Some (errors_New "failed request to the ruler api") <->
     ~ 200 <= StatusCode r <= 299 /\ StatusCode r <> 404) /\
  (forall r', StatusCode r' = StatusCode r ->
              fst (checkResponse r') = fst (checkResponse r)) /\
  drained (snd (checkResponse r)) =
    (if accepted (StatusCode r) then [] else [Body r]) /\
  closed (snd (checkResponse r)) = [].
Proof.
  assert (Hfst : forall x : Response,
             fst (checkResponse x) =
             if accepted (StatusCode x) then None
             else Some (classify (StatusCode x))).
  { intros x. unfold checkResponse, accepted, classify.
    destruct ((200 <=? StatusCode x) && (StatusCode x <=? 299)); [reflexivity |].
    destruct (StatusCode x =? 404); reflexivity. }
  split; [| split; [| split; [| split; [| split]]]].
  1-3: rewrite Hfst; unfold classify;
    destruct (accepted (StatusCode r)) eqn:Hacc;
    [apply accepted_iff in Hacc | apply accepted_not in Hacc];
    (destruct (StatusCode r =? 404) eqn:Hnf;
     [apply Z.eqb_eq in Hnf | apply Z.eqb_neq in Hnf]);
    split; intros Hgiven;
    first [discriminate Hgiven | reflexivity | lia].
  - intros r' Hsame. rewrite !Hfst, Hsame. reflexivity.
  - unfold checkResponse, accepted.
    destruct ((200 <=? StatusCode r) && (StatusCode r <=? 299)); [reflexivity |].
    destruct (StatusCode r =? 404); reflexivity.
  - unfold checkResponse.
    destruct ((200 <=? StatusCode r) && (StatusCode r <=? 299)); [reflexivity |].
    destruct (StatusCode r =? 404); reflexivity.
Qed.

(** What [doRequest] sends for a path, a method and a payload. *)
Lemma built_request r path method payload req :
  built r path method payload req ->
  Method req = (if String.eqb method "" then "GET" else method) /\
  url_Parse (URL_String (endpoint r) +:+ path) = inl (ReqURL req) /\
  ReqBody req = payload.
Proof.
  intros (req0 & Hnew & ->).
  apply NewRequest_inl in Hnew as (_ & _ & Hbody & Hmethod & Hurl).
  destruct (outbound_same r req0) as (_ & -> & -> & ->). auto.
Qed.

(** X2.  The request line and the body of each operation.  [CreateRuleGroup]
    POSTs the YAML of the group to the namespace; [DeleteRuleGroup] sends a
    DELETE with an empty body to the namespace, and the group name is not
    part of the URL; [GetRuleGroup] GETs namespace/group; [ListRules] GETs the
    rules root when the namespace is empty, and the namespace otherwise.  In
    each case the URL is what net/url parses from the base followed by the
    path. *)
Theorem operation_request_line
    (r : RulerClient) (c : context.Context) (ns name : string) (rg : RuleGroup)
    (req : Request) :
  (In req (sent (snd (CreateRuleGroup r c ns rg))) ->
   Method req = "POST" /\
   url_Parse (URL_String (endpoint r) +:+ "/api/prom/rules/" +:+ ns) =
     inl (ReqURL req) /\
   yaml_Marshal rg = inl (ReqBody req)) /\
  (In req (sent (snd (DeleteRuleGroup r c ns name))) ->
   Method req = "DELETE" /\
   url_Parse (URL_String (endpoint r) +:+ "/api/prom/rules/" +:+ ns) =
     inl (ReqURL req) /\
   ReqBody req = "") /\
  (In req (sent (snd (GetRuleGroup r c ns name))) ->
   Method req = "GET" /\
   url_Parse (URL_String (endpoint r) +:+ "/api/prom/rules/" +:+ ns +:+ "/" +:+ name) =
     inl (ReqURL req) /\
   ReqBody req = "") /\
  (In req (sent (snd (ListRules r c ns))) ->
   Method req = "GET" /\
   url_Parse (URL_String (endpoint r) +:+
              (if String.eqb ns "" then "/api/prom/rules"
               else "/api/prom/rules/" +:+ ns)) = inl (ReqURL req) /\
   ReqBody req = "").
Proof.
  split; [| split; [| split]].
  - unfold CreateRuleGroup. destruct (yaml_Marshal rg) as [payload | err].
    + intros Hin.
      assert (Hbuilt : built r ("/api/prom/rules/" +:+ ns) "POST" payload req).
      { apply doRequest_sent. revert Hin. run; auto. }
      apply built_request in Hbuilt as (-> & -> & ->). auto.
    + cbn. contradiction.
  - intros Hin.
    assert (Hbuilt : built r ("/api/prom/rules/" +:+ ns) "DELETE" "" req).
    { apply doRequest_sent. revert Hin. run; auto. }
    apply built_request in Hbuilt as (-> & -> & ->). auto.
  - intros Hin.
    assert (Hbuilt : built r ("/api/prom/rules/" +:+ ns +:+ "/" +:+ name) "GET" "" req).
    { apply doRequest_sent. revert Hin. run; auto. }
    apply built_request in Hbuilt as (-> & -> & ->). auto.
  - intros Hin.
    assert (Hbuilt : built r
              (if String.eqb ns "" then "/api/prom/rules"
               else "/api/prom/rules" +:+ "/" +:+ ns) "GET" "" req).
    { apply doRequest_sent. revert Hin. run; auto. }
    apply built_request in Hbuilt as (-> & Hurl & ->).
    destruct (String.eqb ns ""); auto.
Qed.

(** X3.  No operation retries: whatever the transport answers, and also when
    it fails, an operation hands at most one request to it.  An operation
    that returns without an error has handed exactly one. *)
Theorem at_most_one_request
    (r : RulerClient) (c : context.Context) (ns name : string) (rg : RuleGroup) :
  ((length (sent (snd (CreateRuleGroup r c ns rg))) <= 1)%nat /\
   (length (sent (snd (DeleteRuleGroup r c ns name))) <= 1)%nat /\
   (length (sent (snd (GetRuleGroup r c ns name))) <= 1)%nat /\
   (length (sent (snd (ListRules r c ns))) <= 1)%nat) /\
  ((fst (CreateRuleGroup r c ns rg) = None ->
    length (sent (snd (CreateRuleGroup r c ns rg))) = 1%nat) /\
   (fst (DeleteRuleGroup r c ns name) = None ->
    length (sent (snd (DeleteRuleGroup r c ns name))) = 1%nat) /\
   (forall g, fst (GetRuleGroup r c ns name) = inl g ->
    length (sent (snd (GetRuleGroup r c ns name))) = 1%nat) /\
   (forall m, fst (ListRules r c ns) = inl m ->
    length (sent (snd (ListRules r c ns))) = 1%nat)).
Proof.
  split; (split; [| split; [| split]]); run;
    try lia; try discriminate; try reflexivity;
    intros; try discriminate; reflexivity.
Qed.

(** X4.  [CreateRuleGroup] returns no error exactly when the server answered
    its request with a status from 200 to 299; the body of the answer plays no
    part, not even when it cannot be read. *)
Theorem create_succeeds_iff_2xx
    (r : RulerClient) (c : context.Context) (ns : string) (rg : RuleGroup) :
  fst (CreateRuleGroup r c ns rg) = None <->
  exists resp,
    answered (snd (CreateRuleGroup r c ns rg)) resp /\
    200 <= StatusCode resp <= 299.
Proof.
  unfold answered. run; (split; [intros Hnone | intros (resp' & [req Hin] & Hrange)]);
    try discriminate; trace_cases; try reflexivity.
  - apply accepted_not in Hacc. contradiction.
  - eexists. split; [eexists; right; left; reflexivity |].
    apply accepted_iff. assumption.
Qed.

(** X5.  [GetRuleGroup] returns a rule group exactly when the server answered
    with a status from 200 to 299, the body could be read to the end, and the
    codec decodes the body into that group; [ListRules] likewise returns the
    decoded mapping. *)
Theorem get_and_list_return_the_decoded_body
    (r : RulerClient) (c : context.Context) (ns name : string) :
  (forall g,
     fst (GetRuleGroup r c ns name) = inl g <->
     exists resp,
       answered (snd (GetRuleGroup r c ns name)) resp /\
       200 <= StatusCode resp <= 299 /\
       read_error (Body resp) = None /\
       yaml_Unmarshal_RuleGroup (content (Body resp)) = inl g) /\
  (forall m,
     fst (ListRules r c ns) = inl m <->
     exists resp,
       answered (snd (ListRules r c ns)) resp /\
       200 <= StatusCode resp <= 299 /\
       read_error (Body resp) = None /\
       yaml_Unmarshal_RuleSet (content (Body resp)) = inl m).
Proof.
  unfold answered.
  split; intros x; run;
    (split;
     [intros Hgot
     | intros (resp' & [req Hin] & Hrange & Hread & Hyaml)]);
    try discriminate; trace_cases; try congruence.
  - apply accepted_not in Hacc. contradiction.
  - eexists. split; [eexists; right; left; reflexivity |].
    split; [apply accepted_iff; assumption | auto].
  - apply accepted_not in Hacc. contradiction.
  - eexists. split; [eexists; right; left; reflexivity |].
    split; [apply accepted_iff; assumption | auto].
Qed.

(** X6.  A status that is neither accepted nor 404 makes [CreateRuleGroup],
    [DeleteRuleGroup] and [ListRules] return the error "failed request to the
    ruler api", and [GetRuleGroup] that error wrapped with "failed to perform
    request".  The returned error carries neither the status nor the body of
    the response. *)
Theorem failed_request_error
    (r : RulerClient) (c : context.Context) (ns name : string) (rg : RuleGroup)
    (resp : Response) :
  ~ 200 <= StatusCode resp <= 299 ->
  StatusCode resp <> 404 ->
  (answered (snd (CreateRuleGroup r c ns rg)) resp ->
   fst (CreateRuleGroup r c ns rg) =
     Some (errors_New "failed request to the ruler api")) /\
  (answered (snd (DeleteRuleGroup r c ns name)) resp ->
   fst (DeleteRuleGroup r c ns name) =
     Some (errors_New "failed request to the ruler api")) /\
  (answered (snd (ListRules r c ns)) resp ->
   fst (ListRules r c ns) = inr (errors_New "failed request to the ruler api")) /\
  (answered (snd (GetRuleGroup r c ns name)) resp ->
   fst (GetRuleGroup r c ns name) =
     inr (errors_Wrap (errors_New "failed request to the ruler api")
            "failed to perform request")).
Proof.
  intros Hrange%accepted_not Hnf%Z.eqb_neq. unfold answered.
  assert (Hclass : classify (StatusCode resp) =
                   errors_New "failed request to the ruler api").
  { unfold classify. rewrite Hnf. reflexivity. }
  split; [| split; [| split]]; run; intros [req Hin]; trace_cases;
    try congruence; rewrite Hclass; reflexivity.
Qed.

(** X7.  When the answer is accepted but its body cannot be read to the end,
    [DeleteRuleGroup], [GetRuleGroup] and [ListRules] return the read error as
    it is ([GetRuleGroup] does not wrap it), while [CreateRuleGroup], which
    does not read the body, returns no error. *)
Theorem body_read_error_returned
    (r : RulerClient) (c : context.Context) (ns name : string) (rg : RuleGroup)
    (resp : Response) (e : error) :
  200 <= StatusCode resp <= 299 ->
  read_error (Body resp) = Some e ->
  (answered (snd (DeleteRuleGroup r c ns name)) resp ->
   fst (DeleteRuleGroup r c ns name) = Some e) /\
  (answered (snd (GetRuleGroup r c ns name)) resp ->
   fst (GetRuleGroup r c ns name) = inr e) /\
  (answered (snd (ListRules r c ns)) resp ->
   fst (ListRules r c ns) = inr e) /\
  (answered (snd (CreateRuleGroup r c ns rg)) resp ->
   fst (CreateRuleGroup r c ns rg) = None).
Proof.
  intros Hrange%accepted_iff Hread. unfold answered.
  split; [| split; [| split]]; run; intros [req Hin]; trace_cases;
    congruence.
Qed.

(** X8.  A client that [New] makes from a configuration is scoped to the
    configuration's tenant: every request any of its operations hands to the
    transport carries the configuration's id as the only value of the tenant
    header, and the basic credentials (id, key) of the configuration exactly
    when its key is not empty.  The base URL is the parsed address, and
    [New] itself makes no request. *)
Theorem new_client_is_tenant_scoped
    (net : http.Client) (cfg : Config) (r : RulerClient) (c : context.Context)
    (ns name : string) (rg : RuleGroup) (req : Request) :
  fst (New net cfg) = inl r ->
  In req (sent (snd (CreateRuleGroup r c ns rg)) ++
          sent (snd (DeleteRuleGroup r c ns name)) ++
          sent (snd (GetRuleGroup r c ns name)) ++
          sent (snd (ListRules r c ns))) ->
  url_Parse (Address cfg) = inl (endpoint r) /\
  sent (snd (New net cfg)) = [] /\
  Header req !! CanonicalMIMEHeaderKey "X-Scope-OrgID" = Some [ID cfg] /\
  Header req !! CanonicalMIMEHeaderKey "Authorization" =
    (if String.eqb (Key cfg) "" then None
     else Some ["Basic " +:+ basicAuth (ID cfg) (Key cfg)]).
Proof.
  unfold New. destruct (url_Parse (Address cfg)) as [u | err] eqn:Hparse;
    [| discriminate].
  cbn. intros [= <-] Hin.
  destruct (operations_sent _ _ _ _ _ _ Hin)
    as (path & method & payload & req0 & Hnew & ->).
  apply NewRequest_inl in Hnew as (_ & Hempty & _).
  destruct (outbound_Header
              {| key := Key cfg; id := ID cfg; endpoint := u; client := net |}
              req0 Hempty) as [Htenant Hauth].
  cbn in Htenant, Hauth. auto.
Qed.

(** X9.  The tenant header and, with a key, the [Authorization] header are
    the only headers the client sets on a request: it sets no content type,
    also on the POST that carries the YAML of a rule group. *)
Theorem no_other_header
    (r : RulerClient) (c : context.Context) (ns name : string) (rg : RuleGroup)
    (req : Request) (k : string) :
  In req (sent (snd (CreateRuleGroup r c ns rg)) ++
          sent (snd (DeleteRuleGroup r c ns name)) ++
          sent (snd (GetRuleGroup r c ns name)) ++
          sent (snd (ListRules r c ns))) ->
  k <> CanonicalMIMEHeaderKey "X-Scope-OrgID" ->
  k <> CanonicalMIMEHeaderKey "Authorization" ->
  Header req !! k = None /\
  Header_Get "Content-Type" (Header req) = "".
Proof.
  intros Hin Htenant Hauth.
  destruct (operations_sent _ _ _ _ _ _ Hin)
    as (path & method & payload & req0 & Hnew & ->).
  apply NewRequest_inl in Hnew as (_ & Hempty & _).
  assert (Hother : forall k', k' <> CanonicalMIMEHeaderKey "X-Scope-OrgID" ->
                              k' <> CanonicalMIMEHeaderKey "Authorization" ->
                              Header (outbound r req0) !! k' = None).
  { intros k' H1 H2.
    unfold outbound, AddHeader, SetBasicAuth, Header_Add, Header_Set.
    destruct (String.eqb (key r) ""); cbn [Header]; rewrite Hempty;
      rewrite ?lookup_insert_ne by congruence; apply lookup_empty. }
  split; [apply Hother; assumption |].
  unfold Header_Get. rewrite Hother; [reflexivity | |]; discriminate.
Qed.

(** X10.  The client logs at error level, once, with the message "requests
    failed", exactly when the server answered with a status that is neither
    accepted nor 404; a 404 and every other outcome are logged at debug level
    only. *)
Theorem error_level_log
    (r : RulerClient) (c : context.Context) (ns name : string) (rg : RuleGroup) :
  let told (t : list Event) :=
    (forall resp, answered t resp ->
       error_logs t =
         if accepted (StatusCode resp) || (StatusCode resp =? 404) then []
         else ["requests failed"]) /\
    ((forall resp, ~ answered t resp) -> error_logs t = []) in
  told (snd (CreateRuleGroup r c ns rg)) /\
  told (snd (DeleteRuleGroup r c ns name)) /\
  told (snd (GetRuleGroup r c ns name)) /\
  told (snd (ListRules r c ns)).
Proof.
  cbv zeta. unfold answered, accepted.
  split; [| split; [| split]]; run_exact;
    (split;
     [ intros resp [req Hin]; trace_cases; try discriminate;
       repeat match goal with
         | Heq : (_ && _) = _ |- _ => rewrite Heq
         | Heq : (_ =? 404) = _ |- _ => rewrite Heq
         end; reflexivity
     | intros Hnone; try reflexivity;
       exfalso; eapply Hnone; eexists; right; left; reflexivity ]).
Qed.

End More.
End client_more.

(** * Further concrete runs of the client *)

Module client_more_runs.
Import client client_spec client_facts client_more run.

(** [checkResponse] at the edges of the accepted range and at 404. *)
Example checkResponse_at_the_edges :
  List.map (fun code =>
              fst (checkResponse (H := textual true)
                     {| Status := ""; StatusCode := code;
                        Body := {| content := ""; read_error := None |} |}))
    [199; 200; 299; 300; 404] =
  [Some (errors_New "failed request to the ruler api"); None; None;
   Some (errors_New "failed request to the ruler api"); Some ErrResourceNotFound].
Proof. reflexivity. Qed.

(** X2 on the first scenario. *)
Lemma operation_request_line_scenario :
  Method scenario_request = "POST" /\
  @url_Parse (textual true)
    ("http://r.example/" +:+ "/api/prom/rules/" +:+ "alerts") =
    inl (ReqURL scenario_request) /\
  @yaml_Marshal (textual true) "name: g1" = inl (ReqBody scenario_request).
Proof.
  apply (proj1 (operation_request_line (scenario_client true no_content)
                  background "alerts" "g1"
                  ("name: g1" : @RuleGroup (textual true)) scenario_request)).
  vm_compute. left. reflexivity.
Defined.

(** X4 on a server that answers 204, and on one that answers 500. *)
Lemma create_succeeds_iff_2xx_scenario :
  fst (CreateRuleGroup (scenario_client true no_content) background "alerts"
         "name: g1") = None /\
  ~ (exists resp,
       answered (snd (CreateRuleGroup (scenario_client true server_error)
                        background "alerts" "name: g1")) resp /\
       200 <= StatusCode resp <= 299).
Proof.
  split.
  - apply (proj2 (create_succeeds_iff_2xx (scenario_client true no_content)
                    background "alerts"
                    ("name: g1" : @RuleGroup (textual true)))).
    eexists. split; [eexists; cbn; right; left; reflexivity |]. cbn. lia.
  - intros Hok.
    apply (proj2 (create_succeeds_iff_2xx (scenario_client true server_error)
                    background "alerts"
                    ("name: g1" : @RuleGroup (textual true)))) in Hok.
    discriminate Hok.
Defined.

(** X5 on a server that answers 200 with the YAML of a group. *)
Lemma get_and_list_return_the_decoded_body_scenario :
  fst (GetRuleGroup (scenario_client true one_group) background "alerts" "g1") =
    inl ("name: g1" : @RuleGroup (textual true)) /\
  fst (ListRules (scenario_client true one_group) background "alerts") =
    inl ({[ "alerts" := ["name: g1"] ]} : gmap string (@RuleNamespace (textual true))).
Proof.
  destruct (get_and_list_return_the_decoded_body (scenario_client true one_group)
              background "alerts" "g1") as [Hget Hlist].
  split; [apply Hget | apply Hlist];
    (eexists; split; [eexists; cbn; right; left; reflexivity |]);
    cbn; repeat split; lia.
Defined.

(** X6 on a server that answers 500. *)
Lemma failed_request_error_500 :
  fst (CreateRuleGroup (scenario_client true server_error) background "alerts"
         "name: g1") = Some (errors_New "failed request to the ruler api") /\
  fst (DeleteRuleGroup (scenario_client true server_error) background "alerts" "g1") =
    Some (errors_New "failed request to the ruler api") /\
  fst (ListRules (scenario_client true server_error) background "alerts") =
    inr (errors_New "failed request to the ruler api") /\
  fst (GetRuleGroup (scenario_client true server_error) background "alerts" "g1") =
    inr (errors_Wrap (errors_New "failed request to the ruler api")
           "failed to perform request").
Proof.
  destruct (failed_request_error (scenario_client true server_error) background
              "alerts" "g1" ("name: g1" : @RuleGroup (textual true))
              {| Status := "500 Internal Server Error"; StatusCode := 500;
                 Body := {| content := "boom"; read_error := None |} |})
    as (HC & HD & HL & HG); [cbn; lia | cbn; lia |].
  split; [apply HC | split; [apply HD | split; [apply HL | apply HG]]];
    (eexists; cbn; right; left; reflexivity).
Defined.

(** X7 on a server whose body breaks off. *)
Lemma body_read_error_returned_truncated :
  fst (DeleteRuleGroup (scenario_client true truncating) background "alerts" "g1") =
    Some unexpected_EOF /\
  fst (GetRuleGroup (scenario_client true truncating) background "alerts" "g1") =
    inr unexpected_EOF /\
  fst (ListRules (scenario_client true truncating) background "alerts") =
    inr unexpected_EOF /\
  fst (CreateRuleGroup (scenario_client true truncating) background "alerts"
         "name: g1") = None.
Proof.
  destruct (body_read_error_returned (scenario_client true truncating) background
              "alerts" "g1" ("name: g1" : @RuleGroup (textual true))
              {| Status := "200 OK"; StatusCode := 200;
                 Body := {| content := "name"; read_error := Some unexpected_EOF |} |}
              unexpected_EOF)
    as (HD & HG & HL & HC); [cbn; lia | reflexivity |].
  split; [apply HD | split; [apply HG | split; [apply HL | apply HC]]];
    (eexists; cbn; right; left; reflexivity).
Defined.

(** X8 on the first scenario. *)
Lemma new_client_is_tenant_scoped_scenario :
  @url_Parse (textual true) (Address scenario_config) =
    inl (endpoint (scenario_client true no_content)) /\
  sent (snd (New no_content scenario_config)) = [] /\
  Header scenario_request !! "X-Scope-Orgid" = Some [ID scenario_config] /\
  Header scenario_request !! "Authorization" = Some ["Basic dDE6czNjcjN0"].
Proof.
  apply (new_client_is_tenant_scoped no_content scenario_config
           (scenario_client true no_content) background "alerts" "g1"
           ("name: g1" : @RuleGroup (textual true)) scenario_request).
  - reflexivity.
  - apply in_or_app. left. vm_compute. left. reflexivity.
Defined.

(** X9 on the first scenario: no content type. *)
Lemma no_other_header_scenario :
  Header scenario_request !! "Content-Type" = None /\
  Header_Get "Content-Type" (Header scenario_request) = "".
Proof.
  apply (no_other_header (scenario_client true no_content) background "alerts" "g1"
           ("name: g1" : @RuleGroup (textual true)) scenario_request "Content-Type").
  - apply in_or_app. left. vm_compute. left. reflexivity.
  - discriminate.
  - discriminate.
Defined.

(** X10 on a server that answers 500 and on one that answers 404. *)
Lemma error_level_log_scenario :
  error_logs (snd (GetRuleGroup (scenario_client true server_error) background
                     "alerts" "g1")) = ["requests failed"] /\
  error_logs (snd (GetRuleGroup (scenario_client true not_found) background
                     "alerts" "g1")) = [].
Proof.
  split.
  - destruct (error_level_log (scenario_client true server_error) background
                "alerts" "g1" ("name: g1" : @RuleGroup (textual true)))
      as (_ & _ & [Hget _] & _).
    apply (Hget {| Status := "500 Internal Server Error"; StatusCode := 500;
                   Body := {| content := "boom"; read_error := None |} |}).
    eexists. cbn. right. left. reflexivity.
  - destruct (error_level_log (scenario_client true not_found) background
                "alerts" "g1" ("name: g1" : @RuleGroup (textual true)))
      as (_ & _ & [Hget _] & _).
    apply (Hget {| Status := "404 Not Found"; StatusCode := 404;
                   Body := {| content := "not found"; read_error := None |} |}).
    eexists. cbn. right. left. reflexivity.
Defined.

(** X11 on a server that answers 200: the body is opened once and closed. *)
Lemma body_closure_200 :
  opened (snd (GetRuleGroup (scenario_client true one_group) background
                 "alerts" "g1")) =
    [{| content := "name: g1"; read_error := None |}] /\
  closed (snd (GetRuleGroup (scenario_client true one_group) background
                 "alerts" "g1")) =
    [{| content := "name: g1"; read_error := None |}].
Proof.
  destruct (body_closure (scenario_client true one_group) background "alerts" "g1"
              ("name: g1" : @RuleGroup (textual true))
              {| Status := "200 OK"; StatusCode := 200;
                 Body := {| content := "name: g1"; read_error := None |} |})
    as (_ & _ & Hget & _).
  apply Hget. eexists. cbn. right. left. reflexivity.
Defined.

(** X12 on a server that answers 204 and on one that answers 201. *)
Lemma delete_parity_204_201 :
  fst (DeleteRuleGroup (scenario_client true no_content) background "alerts" "g1") =
    None /\
  fst (DeleteRuleGroup (scenario_client true created) background "alerts" "g1") =
    Some (fmt_Errorf "error occured, ok").
Proof.
  split.
  - apply (delete_parity (scenario_client true no_content) background "alerts" "g1"
             {| Status := "204 No Content"; StatusCode := 204;
                Body := {| content := ""; read_error := None |} |});
      [eexists; cbn; right; left; reflexivity | reflexivity | reflexivity].
  - apply (delete_parity (scenario_client true created) background "alerts" "g1"
             {| Status := "201 Created"; StatusCode := 201;
                Body := {| content := "ok"; read_error := None |} |});
      [eexists; cbn; right; left; reflexivity | reflexivity | reflexivity].
Defined.

End client_more_runs.

(** * Further properties of the ring join policy *)

Module ring_more.
Import ring alertmanager ring_spec ring_facts.

(** X13.  When the generator returns, [OnRingInstanceRegister] returns the
    inherited tokens, in their order, followed by new tokens: as many as the
    quota leaves room for, all different, and none of them taken by any entry
    of the ring descriptor.  So every returned token is inherited or was not
    taken. *)
Theorem registered_tokens_inherited_then_fresh
    (RingNumTokens : Z) (random : list Z) (ringDesc : Desc) (instanceExists : bool)
    (instanceID : string) (instanceDesc : InstanceDesc) :
  draws_suffice random (snd (TokensFor ringDesc instanceID))
    (RingNumTokens - Z.of_nat (length (inherited instanceExists instanceDesc))) ->
  exists newTokens,
    OnRingInstanceRegister RingNumTokens random ringDesc instanceExists
      instanceID instanceDesc =
      Some (JOINING, inherited instanceExists instanceDesc ++ newTokens) /\
    length newTokens =
      Z.to_nat (RingNumTokens -
                Z.of_nat (length (inherited instanceExists instanceDesc))) /\
    NoDup newTokens /\
    (forall t, t ∈ newTokens -> t ∉ snd (TokensFor ringDesc instanceID)) /\
    (forall id' inst t,
       Ingesters ringDesc !! id' = Some inst ->
       t ∈ newTokens -> t ∉ Tokens inst).
Proof.
  intros Hdraws.
  destruct (OnRingInstanceRegister_returned _ _ _ _ _ _ Hdraws)
    as (newTokens & Hgen & Hreg).
  apply GenerateTokens_returned in Hgen as (Hlen & Hnodup & Hfresh & _).
  exists newTokens. repeat split; try assumption.
  intros id' inst t Hentry Hnew Hold.
  apply (Hfresh t Hnew). eapply TokensFor_taken; eassumption.
Qed.

(** X14.  Registration keeps the tokens of an instance distinct: if the
    prior tokens of an instance that registers again are distinct and are the
    tokens of its entry in the ring descriptor, the returned tokens are all
    distinct; the tokens of a new instance always are. *)
Theorem registered_tokens_distinct
    (RingNumTokens : Z) (random : list Z) (ringDesc : Desc) (instanceExists : bool)
    (instanceID : string) (instanceDesc : InstanceDesc) :
  (instanceExists = true ->
   Ingesters ringDesc !! instanceID = Some instanceDesc /\
   NoDup (Tokens instanceDesc)) ->
  draws_suffice random (snd (TokensFor ringDesc instanceID))
    (RingNumTokens - Z.of_nat (length (inherited instanceExists instanceDesc))) ->
  exists tokens,
    OnRingInstanceRegister RingNumTokens random ringDesc instanceExists
      instanceID instanceDesc = Some (JOINING, tokens) /\
    NoDup tokens.
Proof.
  intros Hprior Hdraws.
  destruct (OnRingInstanceRegister_returned _ _ _ _ _ _ Hdraws)
    as (newTokens & Hgen & ->).
  apply GenerateTokens_returned in Hgen as (_ & Hnodup & Hfresh & _).
  eexists. split; [reflexivity |].
  apply NoDup_app. destruct instanceExists; simpl.
  - destruct (Hprior eq_refl) as [Hentry Hdistinct].
    split; [assumption | split; [| assumption]].
    intros t Hold Hnew. apply (Hfresh t Hnew).
    eapply TokensFor_taken; eassumption.
  - split; [constructor | split; [| assumption]].
    intros t Hold. inversion Hold.
Qed.

(** X15.  An instance that already holds its quota of tokens, or more, gets
    its tokens back as they are and no new one, whatever the random source
    draws and whatever the ring descriptor holds; so does any instance under
    a quota that is not positive. *)
Theorem full_quota_generates_nothing
    (RingNumTokens : Z) (random : list Z) (ringDesc : Desc) (instanceExists : bool)
    (instanceID : string) (instanceDesc : InstanceDesc) :
  RingNumTokens <= Z.of_nat (length (inherited instanceExists instanceDesc)) ->
  OnRingInstanceRegister RingNumTokens random ringDesc instanceExists
    instanceID instanceDesc =
    Some (JOINING, inherited instanceExists instanceDesc).
Proof.
  intros Hfull. unfold OnRingInstanceRegister, GenerateTokens.
  fold (inherited instanceExists instanceDesc).
  replace (_ <=? 0) with true by (symmetry; apply Z.leb_le; lia).
  rewrite app_nil_r. reflexivity.
Qed.

End ring_more.

(** * Further concrete runs of the ring join policy *)

Module ring_more_runs.
Import ring alertmanager ring_spec ring_facts ring_more run.

(** X13 on the ring of two: a third alertmanager registers under a quota of
    four tokens. *)
Lemma registered_tokens_new_instance :
  exists newTokens,
    OnRingInstanceRegister 4 (counting 10) two_instances false "am-3" (entry []) =
      Some (JOINING, [] ++ newTokens) /\
    length newTokens = 4%nat /\
    NoDup newTokens /\
    (forall t, t ∈ newTokens -> t ∉ snd (TokensFor two_instances "am-3")) /\
    (forall id' inst t,
       Ingesters two_instances !! id' = Some inst ->
       t ∈ newTokens -> t ∉ Tokens inst).
Proof.
  apply (registered_tokens_inherited_then_fresh 4 (counting 10) two_instances
           false "am-3" (entry [])).
  unfold draws_suffice. vm_compute. lia.
Defined.

(** The tokens of that run: 1001, 1003 and 1005 are taken and are skipped. *)
Example registered_tokens_new_instance_run :
  OnRingInstanceRegister 4 (counting 10) two_instances false "am-3" (entry []) =
    Some (JOINING, [1000; 1002; 1004; 1006]).
Proof. vm_compute. reflexivity. Qed.

(** X14 on the ring of two: am-1 registers again under a quota of four. *)
Lemma registered_tokens_distinct_am_1 :
  exists tokens,
    OnRingInstanceRegister 4 (counting 10) two_instances true "am-1"
      (entry [1001; 1005]) = Some (JOINING, tokens) /\
    NoDup tokens.
Proof.
  apply (registered_tokens_distinct 4 (counting 10) two_instances true "am-1"
           (entry [1001; 1005])).
  - intros _. split; [vm_compute; reflexivity |].
    simpl. repeat constructor; rewrite ?elem_of_cons, ?elem_of_nil; lia.
  - unfold draws_suffice. vm_compute. lia.
Defined.

(** Without the entry in the ring descriptor a kept token can be generated
    again: here the descriptor is empty, the instance keeps 1000, and 1000 is
    the first draw. *)
Example stale_token_generated_again :
  OnRingInstanceRegister 2 (counting 10) {| Ingesters := ∅ |} true "am-1"
    (entry [1000]) = Some (JOINING, [1000; 1000]).
Proof. vm_compute. reflexivity. Qed.

(** X15 on a prior entry with 129 tokens under a quota of 128, with a random
    source that draws nothing. *)
Lemma full_quota_generates_nothing_crowded :
  OnRingInstanceRegister 128 [] two_instances true "am-1" crowded =
    Some (JOINING, Tokens crowded).
Proof.
  apply (full_quota_generates_nothing 128 [] two_instances true "am-1" crowded).
  vm_compute. discriminate.
Defined.

End ring_more_runs.
